(** * RLS_Shiny: simple linear regression dashboard

    A shallow embedding of [RLS_Shiny.py]: the loader
    [cargar_y_validar_datos], the regression engine [calcular_estadisticos],
    the plot builder [crear_grafico_interactivo] and the Shiny handlers that
    compose the hypothetical point.

    The program computes with numpy's [float64]; the embedding is written once
    over a class [Number] of arithmetic operations and read at two instances:
    - [float], IEEE 754 binary64 (what the program runs on), with the power
      function of the C library as a parameter, and
    - [R], exact real arithmetic (what the formulas mean).

    [print] diagnostics of the loader are not modelled, nor is the [:.2f]
    formatting of the rendered strings: handlers return the values they format. *)

From Stdlib Require Import ZArith List String Bool Floats Reals Lra Lia.
Import ListNotations.

Set Implicit Arguments.

(** ** Outcomes of a Python call *)

(** A call either returns a value or raises; the exception is kept by the name
    of its class. *)
Inductive outcome (A : Type) : Type :=
| Returned (a : A)
| Raised (exn : string).
Arguments Returned {A} a.
Arguments Raised {A} exn.

Definition bind {A B : Type} (m : outcome A) (k : A -> outcome B) : outcome B :=
  match m with
  | Returned a => k a
  | Raised e => Raised e
  end.

Notation "x <- m ;; k" := (bind m (fun x => k))
  (at level 61, m at next level, right associativity).

(** ** Numbers *)

(** The operations the program applies to its numbers.  [Fpow_two] and
    [Fpow_half] are the two powers it takes of a scalar, [x ** 2] and
    [x ** 0.5]; [Fsqrt] is [numpy.sqrt], [Fmin]/[Fmax] are numpy's [minimum] and
    [maximum], [Fnan] is [numpy.nan], [FofZ] the conversion of an integer. *)
Class Number (F : Type) : Type := {
  FofZ : Z -> F;
  Fhalf : F;
  Fnan : F;
  Fadd : F -> F -> F;
  Fsub : F -> F -> F;
  Fmul : F -> F -> F;
  Fdiv : F -> F -> F;
  Fsqrt : F -> F;
  Fpow_two : F -> F;
  Fpow_half : F -> F;
  Fmin : F -> F -> F;
  Fmax : F -> F -> F;
  Fisnan : F -> bool
}.

Declare Scope num_scope.
Delimit Scope num_scope with num.
Infix "+" := Fadd : num_scope.
Infix "-" := Fsub : num_scope.
Infix "*" := Fmul : num_scope.
Infix "/" := Fdiv : num_scope.

(** [** 2] on the elements of an array: [numpy.square], one multiplication.
    (The power of a scalar is [Fpow_two].) *)
Definition Fpow2 {F} `{Number F} (x : F) : F := (x * x)%num.

(** *** binary64 *)

Module Float64.

(** The conversion of an integer of the [int64] range, -2^63 to 2^63 - 1,
    rounded to nearest. *)
Definition of_Z (z : Z) : float :=
  match z with
  | Z0 => PrimFloat.zero
  | Zpos _ => PrimFloat.of_uint63 (Uint63.of_Z z)
  | Zneg p =>
      if (Zpos p =? 2 ^ 63)%Z then (-0x1p63)%float
      else PrimFloat.opp (PrimFloat.of_uint63 (Uint63.of_Z (Zpos p)))
  end.

(** numpy's reductions keep the accumulator when it compares below (above)
    the next element or is NaN. *)
Definition minimum (a b : float) : float :=
  if PrimFloat.leb a b || PrimFloat.is_nan a then a else b.
Definition maximum (a b : float) : float :=
  if PrimFloat.leb b a || PrimFloat.is_nan a then a else b.

(** The correctly rounded [pow(x, 0.5)]: the square root, except that [-0]
    goes to [+0] and [-inf] to [+inf]. *)
Definition pow_half (x : float) : float :=
  if PrimFloat.eqb x PrimFloat.neg_infinity then PrimFloat.infinity
  else if PrimFloat.eqb x PrimFloat.zero then PrimFloat.zero
  else PrimFloat.sqrt x.

(** A power function that rounds correctly at the two exponents the program
    uses, 2 and 0.5.  It is not meant at any other exponent, where the program
    never calls it, and answers NaN there. *)
Definition pow (x y : float) : float :=
  if PrimFloat.eqb y 2%float then PrimFloat.mul x x
  else if PrimFloat.eqb y 0.5%float then pow_half x
  else PrimFloat.nan.

End Float64.

(** A scalar power, [r ** 2] or [e ** 0.5], is handed by numpy to [pow] of
    the C library.  IEEE 754 does not require [pow] to round correctly and
    the libraries differ in the last bit, so binary64 is read with [pow] as a
    parameter. *)
Definition binary64 (pow : float -> float -> float) : Number float := {|
  FofZ := Float64.of_Z;
  Fhalf := 0.5%float;
  Fnan := PrimFloat.nan;
  Fadd := PrimFloat.add;
  Fsub := PrimFloat.sub;
  Fmul := PrimFloat.mul;
  Fdiv := PrimFloat.div;
  Fsqrt := PrimFloat.sqrt;
  Fpow_two := fun x => pow x 2%float;
  Fpow_half := fun x => pow x 0.5%float;
  Fmin := Float64.minimum;
  Fmax := Float64.maximum;
  Fisnan := PrimFloat.is_nan
|}.

(** What the C standard (Annex F, F.10.4.4) fixes of [pow], at the exponents
    the program uses: NaN goes to NaN; at 0.5 both zeros go to [+0], both
    infinities to [+inf], a negative finite number to NaN, and a positive
    number to no number below zero. *)
Record libm_pow (pow : float -> float -> float) : Prop := {
  pow_nan_two : pow PrimFloat.nan 2%float = PrimFloat.nan;
  pow_nan_half : pow PrimFloat.nan 0.5%float = PrimFloat.nan;
  pow_zero_half : forall x,
    PrimFloat.eqb x PrimFloat.zero = true -> pow x 0.5%float = PrimFloat.zero;
  pow_inf_half : pow PrimFloat.infinity 0.5%float = PrimFloat.infinity;
  pow_neg_inf_half : pow PrimFloat.neg_infinity 0.5%float = PrimFloat.infinity;
  pow_neg_half : forall x,
    PrimFloat.ltb x PrimFloat.zero = true -> x <> PrimFloat.neg_infinity ->
    pow x 0.5%float = PrimFloat.nan;
  pow_pos_half : forall x,
    PrimFloat.ltb PrimFloat.zero x = true ->
    pow x 0.5%float = PrimFloat.nan \/
    PrimFloat.leb PrimFloat.zero (pow x 0.5%float) = true
}.



(** The example tables are run with [Float64.pow]. *)
#[export] Instance float_Number : Number float | 10 := binary64 Float64.pow.

(** *** exact reals *)

(** The formulas over the real numbers.  No real is NaN: the quotient [0/0]
    stands where numpy writes [nan], and a quotient by zero is a number (0, in
    the standard library).  So this reading is the program without rounding
    only where the program divides by no zero and takes no variance of fewer
    than two values; in the degenerate cases (a constant X, a single row) the
    program returns NaN and skips NaN residuals, and the reading says nothing
    of it. *)
#[export] Instance R_Number : Number R := {|
  FofZ := IZR;
  Fhalf := (/ 2)%R;
  Fnan := (0 / 0)%R;
  Fadd := Rplus;
  Fsub := Rminus;
  Fmul := Rmult;
  Fdiv := Rdiv;
  Fsqrt := R_sqrt.sqrt;
  Fpow_two := fun x => (x * x)%R;
  Fpow_half := R_sqrt.sqrt;
  Fmin := Rmin;
  Fmax := Rmax;
  Fisnan := fun _ => false
|}.

(** ** pandas and numpy

    The reductions the program calls, at the defaults it calls them with
    ([skipna=True], [min_periods=None], [method="pearson"]).  Sums run left to
    right, which is numpy's order for fewer than eight elements. *)

Section Pandas.

Context {F : Type} `{Number F}.
Local Open Scope num_scope.

Definition notna (x : F) : bool := negb (Fisnan x).

(** [ndarray.sum]. *)
Definition np_sum (xs : list F) : F := fold_left Fadd xs (FofZ 0).

(** The values with every NaN replaced by [fill]. *)
Definition fillna (fill : F) (xs : list F) : list F :=
  map (fun x => if Fisnan x then fill else x) xs.

Definition count (xs : list F) : Z := Z.of_nat (List.length (filter notna xs)).

(** [Series.sum]: NaN counts as zero. *)
Definition Series_sum (xs : list F) : F := np_sum (fillna (FofZ 0) xs).

(** [Series.mean]. *)
Definition Series_mean (xs : list F) : F := Series_sum xs / FofZ (count xs).

(** [Series.var(ddof)]: two passes, NaN when [count <= ddof]. *)
Definition Series_var_ddof (ddof : Z) (xs : list F) : F :=
  if (count xs <=? ddof)%Z then Fnan
  else
    let avg := Series_sum xs / FofZ (count xs) in
    let sqr := map (fun x => if Fisnan x then FofZ 0 else Fpow2 (avg - x)) xs in
    np_sum sqr / FofZ (count xs - ddof).

(** [Series.min] and [Series.max]: NaN is skipped; NaN when nothing is left. *)
Definition Series_min (xs : list F) : F :=
  match filter notna xs with
  | [] => Fnan
  | x :: rest => fold_left Fmin rest x
  end.
Definition Series_max (xs : list F) : F :=
  match filter notna xs with
  | [] => Fnan
  | x :: rest => fold_left Fmax rest x
  end.

(** The rows where both series hold a value. *)
Definition valid_pairs (xs ys : list F) : list (F * F) :=
  filter (fun p => notna (fst p) && notna (snd p)) (combine xs ys).

Definition np_mean (xs : list F) : F := np_sum xs / FofZ (Z.of_nat (List.length xs)).

Definition np_dot (xs ys : list F) : F :=
  np_sum (map (fun p => fst p * snd p) (combine xs ys)).

(** One entry of [numpy.cov(a, b, ddof)]: deviations from the means, their
    dot product, times the reciprocal of [len - ddof] (of [0.0] when that is
    not positive). *)
Definition np_cov (ddof : Z) (xs ys : list F) : F :=
  let fact := (Z.of_nat (List.length xs) - ddof)%Z in
  let fact := if (fact <=? 0)%Z then 0%Z else fact in
  let dx := map (fun x => x - np_mean xs) xs in
  let dy := map (fun y => y - np_mean ys) ys in
  np_dot dx dy * (FofZ 1 / FofZ fact).

(** [Series.cov(other, ddof)]. *)
Definition Series_cov_ddof (ddof : Z) (xs ys : list F) : F :=
  let ps := valid_pairs xs ys in
  match ps with
  | [] => Fnan
  | _ => np_cov ddof (map fst ps) (map snd ps)
  end.

Definition np_clip (x lo hi : F) : F := Fmin (Fmax x lo) hi.

(** The off-diagonal entry of [numpy.corrcoef(a, b)]: the covariance at the
    default [ddof = 1], divided by one standard deviation and then the other,
    clipped to [-1, 1]. *)
Definition np_corrcoef (xs ys : list F) : F :=
  let c := np_cov 1 xs ys in
  let sx := Fsqrt (np_cov 1 xs xs) in
  let sy := Fsqrt (np_cov 1 ys ys) in
  np_clip (c / sx / sy) (FofZ (-1)) (FofZ 1).

(** [Series.corr(other)], Pearson. *)
Definition Series_corr (xs ys : list F) : F :=
  let ps := valid_pairs xs ys in
  match ps with
  | [] => Fnan
  | _ => np_corrcoef (map fst ps) (map snd ps)
  end.

(** The defaults: [ddof = 1]. *)
Definition Series_var : list F -> F := Series_var_ddof 1.
Definition Series_cov : list F -> list F -> F := Series_cov_ddof 1.

End Pandas.

(** ** Tables *)

Section Program.

Context {F : Type} `{Number F}.
Local Open Scope string_scope.
Local Open Scope num_scope.

(** A Python object as it occurs as a column label or as a cell of an
    object-typed column. *)
Inductive pyobj : Type :=
| PyStr (s : string)
| PyNum (x : F)
| PyNone.

(** A column with its dtype, as [pd.read_excel] infers it: [float64] (where
    a missing value is NaN) when some cell holds a fraction or is missing,
    [int64] when every cell holds an integer, [bool] when every cell holds a
    truth value, [object] otherwise.  Dates are not part of the model. *)
Inductive Series : Type :=
| NumSeries (xs : list F)
| IntSeries (zs : list Z)
| BoolSeries (bs : list bool)
| ObjSeries (cells : list pyobj).

(** [len(s)]. *)
Definition len (s : Series) : nat :=
  match s with
  | NumSeries xs => List.length xs
  | IntSeries zs => List.length zs
  | BoolSeries bs => List.length bs
  | ObjSeries cells => List.length cells
  end.

(** A [DataFrame]: its labelled columns, in order. *)
Definition DataFrame : Type := list (pyobj * Series).

Definition columns (data : DataFrame) : list pyobj := map fst data.

(** [data.shape[1]]. *)
Definition shape1 (data : DataFrame) : nat := List.length data.

(** [data.iloc[:, i]]. *)
Definition iloc (data : DataFrame) (i : nat) : outcome Series :=
  match nth_error data i with
  | Some (_, s) => Returned s
  | None => Raised "IndexError"
  end.

(** [isinstance(col, str)]. *)
Definition isinstance_str (col : pyobj) : bool :=
  match col with
  | PyStr _ => true
  | _ => false
  end.

(** [pd.api.types.is_numeric_dtype]: the boolean dtype counts as numeric. *)
Definition is_numeric_dtype (s : Series) : bool :=
  match s with
  | NumSeries _ | IntSeries _ | BoolSeries _ => true
  | ObjSeries _ => false
  end.

Definition isnull_obj (c : pyobj) : bool :=
  match c with
  | PyStr _ => false
  | PyNum x => Fisnan x
  | PyNone => true
  end.

(** [s.isnull().any()]: an [int64] or [bool] column holds no null. *)
Definition isnull_any (s : Series) : bool :=
  match s with
  | NumSeries xs => existsb Fisnan xs
  | IntSeries _ | BoolSeries _ => false
  | ObjSeries cells => existsb isnull_obj cells
  end.

(** [data.isnull().any().any()]. *)
Definition isnull_any_any (data : DataFrame) : bool :=
  existsb (fun c => isnull_any (snd c)) data.

(** The conversion of a truth value: [True] is 1.0 and [False] is 0.0. *)
Definition of_bool (b : bool) : F := FofZ (Z.b2z b).

(** The numbers of a column as [float64], which is what [cov], [var], [mean]
    and [corr] start with and what arithmetic with a [float64] operand turns
    the column into.  The conversion of an object column is not followed
    further: it stops with the [ValueError] that a cell holding text
    raises. *)
Definition values (s : Series) : outcome (list F) :=
  match s with
  | NumSeries xs => Returned xs
  | IntSeries zs => Returned (map FofZ zs)
  | BoolSeries bs => Returned (map of_bool bs)
  | ObjSeries _ => Raised "ValueError"
  end.

(** Column [i] as [float64]. *)
Definition columna (data : DataFrame) (i : nat) : outcome (list F) :=
  c <- iloc data i ;; values c.

(** *** Scalars *)

(** What [Series.max] and [Series.min] return: a numpy scalar of the dtype of
    the column. *)
Inductive scalar : Type :=
| SFloat (x : F)
| SInt (z : Z)
| SBool (b : bool).

Definition to_float (v : scalar) : F :=
  match v with
  | SFloat x => x
  | SInt z => FofZ z
  | SBool b => of_bool b
  end.

(** [int64] arithmetic wraps around. *)
Definition wrap64 (z : Z) : Z := ((z + 2 ^ 63) mod 2 ^ 64 - 2 ^ 63)%Z.

(** [s.max()] and [s.min()]: NaN for a column without rows.  Text is not
    followed further: [TypeError] stands for what comparing or subtracting it
    raises. *)
Definition Series_max_scalar (s : Series) : outcome scalar :=
  match s with
  | NumSeries xs => Returned (SFloat (Series_max xs))
  | IntSeries [] => Returned (SFloat Fnan)
  | IntSeries (z :: zs) => Returned (SInt (fold_left Z.max zs z))
  | BoolSeries [] => Returned (SFloat Fnan)
  | BoolSeries (b :: bs) => Returned (SBool (fold_left orb bs b))
  | ObjSeries _ => Raised "TypeError"
  end.

Definition Series_min_scalar (s : Series) : outcome scalar :=
  match s with
  | NumSeries xs => Returned (SFloat (Series_min xs))
  | IntSeries [] => Returned (SFloat Fnan)
  | IntSeries (z :: zs) => Returned (SInt (fold_left Z.min zs z))
  | BoolSeries [] => Returned (SFloat Fnan)
  | BoolSeries (b :: bs) => Returned (SBool (fold_left andb bs b))
  | ObjSeries _ => Raised "TypeError"
  end.

(** [a - b] on numpy scalars: numpy refuses to subtract two booleans, two
    [int64] are subtracted in [int64], and a [float64] operand makes the
    result [float64]. *)
Definition scalar_sub (a b : scalar) : outcome scalar :=
  match a, b with
  | SBool _, SBool _ => Raised "TypeError"
  | SInt x, SInt y => Returned (SInt (wrap64 (x - y)))
  | SInt x, SBool c => Returned (SInt (wrap64 (x - Z.b2z c)))
  | SBool c, SInt y => Returned (SInt (wrap64 (Z.b2z c - y)))
  | _, _ => Returned (SFloat (to_float a - to_float b))
  end.

(** ** The loader *)

Definition msg_columnas : string :=
  "El archivo debe contener exactamente tres columnas.".
Definition msg_encabezado : string :=
  "Cada columna debe tener un encabezado.".
Definition msg_numericas : string :=
  "Las columnas de la variable independiente y dependiente deben ser numéricas.".
Definition msg_nulos : string :=
  "Las columnas no deben contener valores nulos.".
Definition msg_carga : string :=
  "No se pudo cargar el archivo. Verifica que sea un archivo .xlsx válido.".

(** [pd.read_excel]: the file system and the spreadsheet parser. *)
Variable read_excel : string -> outcome DataFrame.

(** The body of the [try] block, after [read_excel] has returned. *)
Definition validar (data : DataFrame) : outcome (option DataFrame * option string) :=
  if negb (shape1 data =? 3)%nat then Returned (None, Some msg_columnas)
  else if negb (forallb isinstance_str (columns data)) then
    Returned (None, Some msg_encabezado)
  else
    c1 <- iloc data 1 ;;
    if negb (is_numeric_dtype c1) then Returned (None, Some msg_numericas)
    else
      c2 <- iloc data 2 ;;
      if negb (is_numeric_dtype c2) then Returned (None, Some msg_numericas)
      else if isnull_any_any data then Returned (None, Some msg_nulos)
      else Returned (Some data, None).

Definition cargar_y_validar_datos (filepath : string)
  : option DataFrame * option string :=
  match (data <- read_excel filepath ;; validar data) with
  | Returned res => res
  | Raised _ => (None, Some msg_carga)
  end.

(** ** The regression engine *)

Record Stats : Type := {
  pendiente : F;
  interseccion : F;
  coef_correlacion : F;
  coef_determinacion : F;
  error_estandar : F
}.

(** [Y - (a + b * X)], row by row. *)
Definition residuos (a b : F) (X Y : list F) : list F :=
  map (fun p => snd p - (a + b * fst p)) (combine X Y).

Definition calcular_estadisticos (data : DataFrame) : outcome Stats :=
  cX <- iloc data 1 ;;
  cY <- iloc data 2 ;;
  X <- values cX ;;
  Y <- values cY ;;
  let n := Z.of_nat (List.length X) in
  let b := Series_cov X Y / Series_var X in
  let a := Series_mean Y - b * Series_mean X in
  let r := Series_corr X Y in
  let r2 := Fpow_two r in
  let error_estandar := Series_sum (map Fpow2 (residuos a b X Y)) / FofZ (n - 2) in
  let error_estandar := Fpow_half error_estandar in
  Returned {| pendiente := b;
              interseccion := a;
              coef_correlacion := r;
              coef_determinacion := r2;
              error_estandar := error_estandar |}.

(** [predict(a, b, x)] of the specification: the line at [x]. *)
Definition predict (a b x : F) : F := a + b * x.

(** ** The plot *)

Inductive trace_name : Type :=
| Datos
| Recta (a b : F)
| Punto_hipotetico.

(** A trace holds its coordinates as columns; a Python list of numbers is
    held as the [float64] column it converts to. *)
Record Scatter : Type := {
  sc_x : Series;
  sc_y : Series;
  sc_mode : string;
  sc_color : option string;
  sc_name : trace_name
}.

Record Figure : Type := {
  fig_data : list Scatter;
  xaxis_title : pyobj;
  yaxis_title : pyobj;
  fig_title : string
}.

Definition label (data : DataFrame) (i : nat) : outcome pyobj :=
  match nth_error (columns data) i with
  | Some l => Returned l
  | None => Raised "IndexError"
  end.

Definition crear_grafico_interactivo (data : DataFrame) (a b : F)
    (x_hypothetical : option F) : outcome Figure :=
  cX <- iloc data 1 ;;
  cY <- iloc data 2 ;;
  hi <- Series_max_scalar cX ;;
  lo <- Series_min_scalar cX ;;
  X_range <- scalar_sub hi lo ;;
  let X_min := to_float lo - to_float X_range * Fhalf in
  let X_max := to_float hi + to_float X_range * Fhalf in
  let X_line := [X_min; X_max] in
  let Y_line := map (fun x => a + b * x) X_line in
  let scatter := {| sc_x := cX; sc_y := cY; sc_mode := "markers";
                    sc_color := None; sc_name := Datos |} in
  let line := {| sc_x := NumSeries X_line; sc_y := NumSeries Y_line;
                 sc_mode := "lines"; sc_color := None; sc_name := Recta a b |} in
  let traces :=
    match x_hypothetical with
    | Some xh =>
        let y_hypothetical := a + b * xh in
        let point := {| sc_x := NumSeries [xh]; sc_y := NumSeries [y_hypothetical];
                        sc_mode := "markers"; sc_color := Some "gold";
                        sc_name := Punto_hipotetico |} in
        [scatter; line; point]
    | None => [scatter; line]
    end in
  t1 <- label data 1 ;;
  t2 <- label data 2 ;;
  Returned {| fig_data := traces;
              xaxis_title := t1;
              yaxis_title := t2;
              fig_title := "Gráfico de dispersión y recta de regresión" |}.

(** ** The Shiny session *)

Record FileInfo : Type := { name : string; datapath : string }.

(** The inputs of [app_ui]: the uploaded file and the four sliders. *)
Record Input : Type := {
  file : option FileInfo;
  signo : Z;
  centenas : Z;
  decenas : Z;
  unidades : Z
}.

(** What [app_ui] lets the sliders hold: [signo] runs from -1 to 1 in steps
    of 2, the digits from 0 to 9. *)
Definition slider_values (input : Input) : Prop :=
  (signo input = -1 \/ signo input = 1)%Z /\
  (0 <= centenas input <= 9)%Z /\
  (0 <= decenas input <= 9)%Z /\
  (0 <= unidades input <= 9)%Z.

(** What a handler hands to the page. *)
Inductive rendered : Type :=
| Texto (s : string)
| Lista (stats : Stats)
| Prediccion (x : Z) (y : F)
| Grafico (fig : Figure)
| Nada.

Definition sin_archivo : string := "No se ha cargado ningún archivo.".

Definition x_hypothetical_of (input : Input) : Z :=
  (signo input * (centenas input * 100 + decenas input * 10 + unidades input))%Z.

Definition status (input : Input) : outcome rendered :=
  match file input with
  | None => Returned (Texto sin_archivo)
  | Some f =>
      match cargar_y_validar_datos (datapath f) with
      | (_, Some error_msg) => Returned (Texto error_msg)
      | (_, None) => Returned (Texto ("Archivo cargado: " ++ name f ++ ".")%string)
      end
  end.

Definition estadisticos (input : Input) : outcome rendered :=
  match file input with
  | None => Returned (Texto sin_archivo)
  | Some f =>
      match cargar_y_validar_datos (datapath f) with
      | (Some data, _) =>
          stats <- calcular_estadisticos data ;;
          Returned (Lista stats)
      | (None, _) => Returned Nada
      end
  end.

Definition interpretacion (input : Input) : outcome rendered :=
  match file input with
  | None => Returned (Texto sin_archivo)
  | Some f =>
      match cargar_y_validar_datos (datapath f) with
      | (Some data, _) =>
          stats <- calcular_estadisticos data ;;
          let x_hypothetical := x_hypothetical_of input in
          let y_hypothetical :=
            interseccion stats + pendiente stats * FofZ x_hypothetical in
          Returned (Prediccion x_hypothetical y_hypothetical)
      | (None, _) => Returned Nada
      end
  end.

Definition plot (input : Input) : outcome rendered :=
  match file input with
  | None => Returned Nada
  | Some f =>
      match cargar_y_validar_datos (datapath f) with
      | (Some data, _) =>
          let x_hypothetical := x_hypothetical_of input in
          stats <- calcular_estadisticos data ;;
          fig <- crear_grafico_interactivo data (interseccion stats)
                   (pendiente stats) (Some (FofZ x_hypothetical)) ;;
          Returned (Grafico fig)
      | (None, _) => Returned Nada
      end
  end.

End Program.

Unset Implicit Arguments.

(** ** The loader's checks, as the specification lists them *)

Section LoaderSpec.

Context {F : Type} `{Number F}.

Definition es_cadena (l : @pyobj F) : Prop := exists s, l = PyStr s.

Definition es_cadena_no_vacia (l : @pyobj F) : Prop :=
  exists s, l = PyStr s /\ s <> EmptyString.

Definition todas_cadenas (data : @DataFrame F) : Prop :=
  Forall es_cadena (columns data).

(** A column of numbers: of the dtype [float64], [int64] or [bool]. *)
Definition serie_numerica (s : @Series F) : Prop :=
  (exists xs, s = NumSeries xs) \/ (exists zs, s = IntSeries zs) \/
  (exists bs, s = BoolSeries bs).

Definition columna_numerica (data : @DataFrame F) (i : nat) : Prop :=
  exists h s, nth_error data i = Some (h, s) /\ serie_numerica s.

Definition celda_nula (c : @pyobj F) : Prop :=
  c = PyNone \/ exists x, c = PyNum x /\ Fisnan x = true.

Definition serie_con_nulo (s : @Series F) : Prop :=
  match s with
  | NumSeries xs => exists x, In x xs /\ Fisnan x = true
  | IntSeries _ | BoolSeries _ => False
  | ObjSeries cells => exists c, In c cells /\ celda_nula c
  end.

Definition tiene_nulo (data : @DataFrame F) : Prop :=
  exists h s, In (h, s) data /\ serie_con_nulo s.

(** A list of numbers none of which is NaN. *)
Definition sin_nan (xs : list F) : Prop := Forall (fun x => Fisnan x = false) xs.

(** The X column of a table holds truth values (and has a row). *)
Definition x_es_booleana (data : @DataFrame F) : bool :=
  match nth_error data 1 with
  | Some (_, BoolSeries (_ :: _)) => true
  | _ => false
  end.

(** The range [max - min] of the column fits its dtype: in an [int64] column
    it is below 2^63. *)
Definition sin_desborde (s : @Series F) : Prop :=
  match s with
  | IntSeries (z :: zs) =>
      (fold_left Z.max zs z - fold_left Z.min zs z < 2 ^ 63)%Z
  | _ => True
  end.

(** The range between two extremes as a number: the difference of two
    integers taken as integers, without wrap-around. *)
Definition rango_de (hi lo : @scalar F) : F :=
  match hi, lo with
  | SInt x, SInt y => FofZ (x - y)
  | _, _ => Fsub (to_float hi) (to_float lo)
  end.

(** The five checks in their order: the verdict is the message of the first
    check that fails, or the table itself when none does. *)
Inductive veredicto
  : outcome (@DataFrame F) -> option (@DataFrame F) * option string -> Prop :=
| V_carga e :
    veredicto (Raised e) (None, Some msg_carga)
| V_columnas d :
    shape1 d <> 3 ->
    veredicto (Returned d) (None, Some msg_columnas)
| V_encabezado d :
    shape1 d = 3 -> ~ todas_cadenas d ->
    veredicto (Returned d) (None, Some msg_encabezado)
| V_numericas d :
    shape1 d = 3 -> todas_cadenas d ->
    ~ (columna_numerica d 1 /\ columna_numerica d 2) ->
    veredicto (Returned d) (None, Some msg_numericas)
| V_nulos d :
    shape1 d = 3 -> todas_cadenas d ->
    columna_numerica d 1 -> columna_numerica d 2 ->
    tiene_nulo d ->
    veredicto (Returned d) (None, Some msg_nulos)
| V_valido d :
    shape1 d = 3 -> todas_cadenas d ->
    columna_numerica d 1 -> columna_numerica d 2 ->
    ~ tiene_nulo d ->
    veredicto (Returned d) (Some d, None).

End LoaderSpec.

(** ** The extremes of a column and the centroid, as the specification has them *)

(** [lo] and [hi] are the least and the greatest entry of a column of
    [float64] or of [int64]: entries of the column that no entry is below,
    or above. *)
Definition extremos (s : @Series float) (lo hi : @scalar float) : Prop :=
  match s with
  | NumSeries xs =>
      exists m M, lo = SFloat m /\ hi = SFloat M /\ In m xs /\ In M xs /\
        forall x, In x xs ->
          PrimFloat.leb m x = true /\ PrimFloat.leb x M = true
  | IntSeries zs =>
      exists m M, lo = SInt m /\ hi = SInt M /\ In m zs /\ In M zs /\
        forall z, In z zs -> (m <= z <= M)%Z
  | _ => True
  end.


(** ** Tables used in the examples *)

Section Ejemplos.

Context {F : Type} `{Number F}.
Local Open Scope string_scope.

(** A table of three columns: identifiers under [h0], the integers [X] under
    [h1] and [Y] under [h2]. *)
Definition tabla (h0 h1 h2 : @pyobj F) (ids : list string) (X Y : list Z)
  : @DataFrame F :=
  [(h0, ObjSeries (map PyStr ids));
   (h1, IntSeries X);
   (h2, IntSeries Y)].

Definition tabla_xy : list string -> list Z -> list Z -> @DataFrame F :=
  tabla (PyStr "id") (PyStr "x") (PyStr "y").

(** The example of the specification: Y = 2 X on five points. *)
Definition X_recta : list F := map FofZ [1; 2; 3; 4; 5]%Z.
Definition Y_recta : list F := map FofZ [2; 4; 6; 8; 10]%Z.
Definition recta_perfecta : @DataFrame F :=
  tabla_xy ["a"; "b"; "c"; "d"; "e"] [1; 2; 3; 4; 5]%Z [2; 4; 6; 8; 10]%Z.

(** A constant X. *)
Definition x_constante : @DataFrame F :=
  tabla_xy ["a"; "b"; "c"] [1; 1; 1]%Z [1; 2; 3]%Z.

(** Two rows. *)
Definition dos_filas : @DataFrame F :=
  tabla_xy ["a"; "b"] [1; 2]%Z [1; 3]%Z.

(** Three points off a line, with mean(Y) = 1/3. *)
Definition un_tercio : @DataFrame F :=
  tabla_xy ["a"; "b"; "c"] [1; 2; 3]%Z [0; 0; 1]%Z.

(** A sheet whose first header cell is blank, as [pd.read_excel] returns it:
    the column without a header is given the name ["Unnamed: 0"]. *)
Definition encabezado_en_blanco : @DataFrame F :=
  tabla (PyStr "Unnamed: 0") (PyStr "x") (PyStr "y") ["a"; "b"; "c"]
    [1; 2; 3]%Z [2; 4; 6]%Z.

(** A sheet whose X column holds truth values. *)
Definition x_booleana : @DataFrame F :=
  [(PyStr "id", ObjSeries (map PyStr ["a"; "b"; "c"]));
   (PyStr "x", BoolSeries [true; false; true]);
   (PyStr "y", IntSeries [1; 2; 3]%Z)].

(** A sheet whose X column spans more than 2^63. *)
Definition x_extensa : @DataFrame F :=
  tabla_xy ["a"; "b"; "c"]
    [-6000000000000000000; 0; 6000000000000000000]%Z [1; 2; 3]%Z.

(** A sheet with fractions in both columns. *)
Definition con_fracciones : @DataFrame F :=
  [(PyStr "id", ObjSeries (map PyStr ["a"; "b"; "c"]));
   (PyStr "x", NumSeries [FofZ 1 / FofZ 2; FofZ 2; FofZ 3]%num);
   (PyStr "y", NumSeries [FofZ 1; FofZ 5 / FofZ 2; FofZ 3]%num)].

(** A second column under a number. *)
Definition encabezado_numerico : @DataFrame F :=
  tabla (PyStr "id") (PyNum (FofZ 2020)) (PyStr "y") ["a"; "b"; "c"]
    [1; 2; 3]%Z [2; 4; 6]%Z.

(** A file system in which every path parses to [d]. *)
Definition en_disco (d : @DataFrame F) : string -> outcome (@DataFrame F) :=
  fun _ => Returned d.

(** The sliders at +006 over an uploaded file. *)
Definition entrada_seis : Input :=
  {| file := Some {| name := "datos.xlsx"; datapath := "/tmp/datos.xlsx" |};
     signo := 1; centenas := 0; decenas := 0; unidades := 6 |}.

End Ejemplos.

(** ** Slider settings *)

(** The setting of the four sliders that spells the integer [z]: its sign,
    and the decimal digits of its absolute value.  No file is uploaded. *)
Definition sliders_de (z : Z) : Input :=
  {| file := None;
     signo := if (z <? 0)%Z then (-1)%Z else 1%Z;
     centenas := (Z.abs z / 100)%Z;
     decenas := ((Z.abs z / 10) mod 10)%Z;
     unidades := (Z.abs z mod 10)%Z |}.

(** A table of a single row. *)
Definition una_fila {F : Type} `{Number F} : @DataFrame F :=
  tabla_xy ["a"%string] [4]%Z [7]%Z.


(** The line the page shows once a file is accepted. *)
Definition archivo_cargado (f : FileInfo) : string :=
  ("Archivo cargado: " ++ name f ++ ".")%string.

(** * Properties *)

(** ** The loader *)

Section LoaderFacts.

Context {F : Type} `{Number F}.


Lemma isinstance_str_iff (l : @pyobj F) :
  isinstance_str l = true <-> es_cadena l.
Proof.
  destruct l; simpl; split; intros E; try discriminate; try reflexivity.
  - now exists s.
  - destruct E as [s E]; discriminate.
  - destruct E as [s E]; discriminate.
Qed.

Lemma forallb_isinstance_str (data : @DataFrame F) :
  forallb isinstance_str (columns data) = true <-> todas_cadenas data.
Proof.
  unfold todas_cadenas.
  rewrite forallb_forall, Forall_forall.
  split; intros A l Hl; apply isinstance_str_iff, A, Hl.
Qed.

Lemma isnull_obj_iff (c : @pyobj F) : isnull_obj c = true <-> celda_nula c.
Proof.
  unfold celda_nula.
  destruct c; simpl; split; intros E; try discriminate; auto.
  - destruct E as [E | [x [E _]]]; discriminate.
  - right; now exists x.
  - destruct E as [E | [y [E Hy]]]; [discriminate | now inversion E; subst].
Qed.

Lemma isnull_any_iff (s : @Series F) :
  isnull_any s = true <-> serie_con_nulo s.
Proof.
  destruct s; simpl; rewrite ?existsb_exists.
  - reflexivity.
  - split; [discriminate | tauto].
  - split; [discriminate | tauto].
  - split; intros [c [Hc E]]; exists c; split; auto; now apply isnull_obj_iff.
Qed.

Lemma is_numeric_dtype_iff (s : @Series F) :
  is_numeric_dtype s = true <-> serie_numerica s.
Proof.
  unfold serie_numerica. destruct s; simpl; split; intros E;
    try discriminate; try reflexivity; eauto.
  destruct E as [[? E] | [[? E] | [? E]]]; discriminate.
Qed.

(** A numeric column converts to [float64]. *)
Lemma values_numerica (s : @Series F) :
  is_numeric_dtype s = true -> exists X, values s = Returned X.
Proof. destruct s; simpl; intros E; try discriminate; eauto. Qed.

Lemma isnull_any_any_iff (data : @DataFrame F) :
  isnull_any_any data = true <-> tiene_nulo data.
Proof.
  unfold isnull_any_any, tiene_nulo.
  rewrite existsb_exists.
  split.
  - intros [[h s] [Hin E]]; exists h, s; split; auto; now apply isnull_any_iff.
  - intros [h [s [Hin E]]]; exists (h, s); split; auto; now apply isnull_any_iff.
Qed.

Lemma is_numeric_dtype_iloc (data : @DataFrame F) (i : nat) :
  columna_numerica data i <->
  exists s, iloc data i = Returned s /\ is_numeric_dtype s = true.
Proof.
  unfold columna_numerica, iloc.
  destruct (nth_error data i) as [[h s] |].
  - split.
    + intros [h' [s' [E N]]]; inversion E; subst.
      exists s'; split; [reflexivity | now apply is_numeric_dtype_iff].
    + intros [s' [E N]]; inversion E; subst.
      exists h, s'; split; [reflexivity | now apply is_numeric_dtype_iff].
  - split.
    + intros [h [s [E _]]]; discriminate.
    + intros [s [E _]]; discriminate.
Qed.

Lemma iloc_in_range (data : @DataFrame F) (i : nat) :
  i < shape1 data -> exists s, iloc data i = Returned s.
Proof.
  unfold shape1, iloc; intros L.
  destruct (nth_error data i) as [[h s] |] eqn:E.
  - now exists s.
  - apply nth_error_None in E; lia.
Qed.

(** [validar] never raises, and its result is the verdict of the checks. *)
Lemma validar_veredicto (d : @DataFrame F) :
  exists res, validar d = Returned res /\ veredicto (Returned d) res.
Proof.
  unfold validar.
  destruct (shape1 d =? 3) eqn:E3; simpl.
  2:{ eexists; split; [reflexivity |].
      apply V_columnas. now apply Nat.eqb_neq. }
  apply Nat.eqb_eq in E3.
  destruct (forallb isinstance_str (columns d)) eqn:Eh; simpl.
  2:{ eexists; split; [reflexivity |].
      apply V_encabezado; [assumption |].
      intros A; apply forallb_isinstance_str in A; congruence. }
  apply forallb_isinstance_str in Eh.
  destruct (iloc_in_range d 1) as [c1 E1]; [lia |].
  destruct (iloc_in_range d 2) as [c2 E2]; [lia |].
  rewrite E1; simpl.
  destruct (is_numeric_dtype c1) eqn:N1; simpl.
  2:{ eexists; split; [reflexivity |].
      apply V_numericas; try assumption.
      intros [A _]; apply is_numeric_dtype_iloc in A.
      destruct A as [s [Es Ns]]; congruence. }
  rewrite E2; simpl.
  destruct (is_numeric_dtype c2) eqn:N2; simpl.
  2:{ eexists; split; [reflexivity |].
      apply V_numericas; try assumption.
      intros [_ A]; apply is_numeric_dtype_iloc in A.
      destruct A as [s [Es Ns]]; congruence. }
  assert (C1 : columna_numerica d 1)
    by (apply is_numeric_dtype_iloc; now exists c1).
  assert (C2 : columna_numerica d 2)
    by (apply is_numeric_dtype_iloc; now exists c2).
  destruct (isnull_any_any d) eqn:En.
  - eexists; split; [reflexivity |].
    apply V_nulos; try assumption. now apply isnull_any_any_iff.
  - eexists; split; [reflexivity |].
    apply V_valido; try assumption.
    intros A; apply isnull_any_any_iff in A; congruence.
Qed.

Lemma cargar_veredicto (read_excel : string -> outcome (@DataFrame F))
    (filepath : string) :
  veredicto (read_excel filepath) (cargar_y_validar_datos read_excel filepath).
Proof.
  unfold cargar_y_validar_datos.
  destruct (read_excel filepath) as [d | e]; simpl.
  - destruct (validar_veredicto d) as [res [E V]]. now rewrite E.
  - constructor.
Qed.

(** A verdict that accepts gives back the parsed table, and every check
    passed. *)
Lemma veredicto_valido_inv (p : outcome (@DataFrame F)) (d : @DataFrame F)
    (m : option string) :
  veredicto p (Some d, m) ->
  p = Returned d /\ m = None /\ shape1 d = 3 /\ todas_cadenas d /\
  columna_numerica d 1 /\ columna_numerica d 2 /\ ~ tiene_nulo d.
Proof.
  intros V; inversion V; subst. repeat split; assumption.
Qed.

(** The shape of a validated table: three columns under string headers, the
    second and third numeric, no null anywhere; the two numeric columns
    convert to [float64]. *)
Lemma cargar_valido_inv (read_excel : string -> outcome (@DataFrame F))
    (filepath : string) (d : @DataFrame F) (m : option string) :
  cargar_y_validar_datos read_excel filepath = (Some d, m) ->
  read_excel filepath = Returned d /\ m = None /\
  exists h0 c0 h1 cX h2 cY X Y,
    d = [(PyStr h0, c0); (PyStr h1, cX); (PyStr h2, cY)] /\
    is_numeric_dtype cX = true /\ is_numeric_dtype cY = true /\
    values cX = Returned X /\ values cY = Returned Y /\
    ~ tiene_nulo d.
Proof.
  intros E.
  pose proof (cargar_veredicto read_excel filepath) as V.
  rewrite E in V.
  apply veredicto_valido_inv in V.
  destruct V as [P [M [S3 [Hs [[h1 [cX [N1 NX]]] [[h2 [cY [N2 NY]]] Nn]]]]]].
  split; [assumption | split; [assumption |]].
  destruct d as [| [l0 c0] [| [l1 c1] [| [l2 c2] [| ? ?]]]]; try discriminate.
  simpl in N1, N2. inversion N1; inversion N2; subst.
  unfold todas_cadenas in Hs; simpl in Hs.
  inversion Hs as [| ? ? [s0 A0] Hs1]; subst.
  inversion Hs1 as [| ? ? [s1 A1] Hs2]; subst.
  inversion Hs2 as [| ? ? [s2 A2] _]; subst.
  apply is_numeric_dtype_iff in NX, NY.
  destruct (values_numerica cX NX) as [X EX].
  destruct (values_numerica cY NY) as [Y EY].
  now exists s0, c0, s1, cX, s2, cY, X, Y.
Qed.

End LoaderFacts.

Section LoaderClaims.

Context {F : Type} `{Number F}.
Variable read_excel : string -> outcome (@DataFrame F).

(** The checks exclude one another, so a parse has one verdict. *)
Lemma veredicto_functional (p : outcome (@DataFrame F))
    (r1 r2 : option (@DataFrame F) * option string) :
  veredicto p r1 -> veredicto p r2 -> r1 = r2.
Proof.
  intros V1 V2.
  destruct V1; inversion V2; subst; try reflexivity; try contradiction;
    try (exfalso; tauto).
Qed.

Lemma no_vacia_es_cadena (l : @pyobj F) : es_cadena_no_vacia l -> es_cadena l.
Proof. intros [s [E _]]. now exists s. Qed.

(** C3. The loader applies its five checks in order (the file parses, it has
    three columns, every header is a string, columns 1 and 2 are numeric,
    no cell is null) and answers with the message of the first one that fails;
    it returns the table exactly when all of them pass.  In particular a table
    of 2 or of 4 columns is rejected, a table with a null cell is rejected, and
    a table of three columns under non-empty string headers, numeric in columns
    1 and 2 and free of nulls, is accepted. *)
Theorem cargar_y_validar_datos_orden (filepath : string) :
  let res := cargar_y_validar_datos read_excel filepath in
  veredicto (read_excel filepath) res /\
  (forall d, res = (Some d, None) <->
     read_excel filepath = Returned d /\ shape1 d = 3 /\ todas_cadenas d /\
     columna_numerica d 1 /\ columna_numerica d 2 /\ ~ tiene_nulo d) /\
  (forall d, read_excel filepath = Returned d ->
     shape1 d = 2 \/ shape1 d = 4 -> res = (None, Some msg_columnas)) /\
  (forall d, read_excel filepath = Returned d ->
     tiene_nulo d -> exists msg, res = (None, Some msg)) /\
  (forall d, read_excel filepath = Returned d ->
     shape1 d = 3 -> Forall es_cadena_no_vacia (columns d) ->
     columna_numerica d 1 -> columna_numerica d 2 -> ~ tiene_nulo d ->
     res = (Some d, None)).
Proof.
  intros res.
  pose proof (cargar_veredicto read_excel filepath) as V. fold res in V.
  assert (Acc : forall d, read_excel filepath = Returned d ->
            shape1 d = 3 -> todas_cadenas d ->
            columna_numerica d 1 -> columna_numerica d 2 -> ~ tiene_nulo d ->
            res = (Some d, None)).
  { intros d P S3 Hs N1 N2 Nn. rewrite P in V.
    eapply veredicto_functional; [exact V |]. now apply V_valido. }
  split; [exact V |].
  split; [| split; [| split]].
  - intros d; split.
    + intros E. rewrite E in V. apply veredicto_valido_inv in V. tauto.
    + intros [P [S3 [Hs [N1 [N2 Nn]]]]]. now apply Acc.
  - intros d P S. rewrite P in V.
    eapply veredicto_functional; [exact V |].
    apply V_columnas. lia.
  - intros d P Hn. rewrite P in V.
    inversion V; subst; try (eexists; reflexivity). contradiction.
  - intros d P S3 Hs N1 N2 Nn. apply Acc; try assumption.
    unfold todas_cadenas. eapply Forall_impl; [| exact Hs].
    apply no_vacia_es_cadena.
Qed.

(** In a parsed table of three columns, a header that is not a string makes
    the loader answer "Cada columna debe tener un encabezado."; the loader
    accepts only tables whose every header is a string. *)
Theorem encabezado_no_cadena_rechazado (filepath : string) (d : @DataFrame F) :
  read_excel filepath = Returned d ->
  shape1 d = 3 ->
  (Exists (fun l => ~ es_cadena l) (columns d) ->
   cargar_y_validar_datos read_excel filepath = (None, Some msg_encabezado)) /\
  (cargar_y_validar_datos read_excel filepath = (Some d, None) ->
   todas_cadenas d).
Proof.
  intros P S3.
  pose proof (cargar_veredicto read_excel filepath) as V. rewrite P in V.
  split.
  - intros Ex.
    eapply veredicto_functional; [exact V |].
    apply V_encabezado; [assumption |].
    intros A. apply Exists_exists in Ex. destruct Ex as [l [Hl Nl]].
    unfold todas_cadenas in A. rewrite Forall_forall in A. now apply Nl, A.
  - intros E. rewrite E in V. apply veredicto_valido_inv in V. tauto.
Qed.

End LoaderClaims.

(** C2.  The header check does not see a missing header.  A sheet whose
    first header cell is blank reaches the check with the name ["Unnamed: 0"]
    that [pd.read_excel] gave the column; the name is a string, so
    [isinstance(col, str)] holds, and the loader returns the table instead of
    its message "Cada columna debe tener un encabezado.". *)
Theorem encabezado_en_blanco_aceptado :
  shape1 (F:=float) encabezado_en_blanco = 3 /\
  columns (F:=float) encabezado_en_blanco
  = [PyStr "Unnamed: 0"; PyStr "x"; PyStr "y"] /\
  cargar_y_validar_datos (F:=float) (en_disco encabezado_en_blanco) "datos.xlsx"
  = (Some encabezado_en_blanco, None) /\
  cargar_y_validar_datos (F:=float) (en_disco encabezado_en_blanco) "datos.xlsx"
  <> (None, Some msg_encabezado).
Proof.
  split; [reflexivity |]. split; [reflexivity |].
  split; [vm_compute; reflexivity |].
  intros A. vm_compute in A. discriminate A.
Qed.

(** A table with the header [2020] over its second column is turned down with
    the message of the header check. *)
Lemma encabezado_no_cadena_rechazado_witness :
  cargar_y_validar_datos (F:=float) (en_disco encabezado_numerico) "datos.xlsx"
  = (None, Some msg_encabezado).
Proof.
  apply (encabezado_no_cadena_rechazado (en_disco encabezado_numerico)
           "datos.xlsx" encabezado_numerico eq_refl eq_refl).
  apply Exists_cons_tl, Exists_cons_hd.
  intros [s E]. discriminate E.
Defined.

(** ** The engine *)

Section EngineFacts.

Context {F : Type} `{Number F}.
Local Open Scope num_scope.

(** On a table of three columns whose second and third convert to the
    numbers [X] and [Y] the engine returns, and these are the five numbers. *)
Lemma calcular_estadisticos_tabla (h0 h1 h2 : @pyobj F) (c0 cX cY : @Series F)
    (X Y : list F) :
  values cX = Returned X ->
  values cY = Returned Y ->
  let b := Series_cov X Y / Series_var X in
  let a := Series_mean Y - b * Series_mean X in
  let r := Series_corr X Y in
  calcular_estadisticos [(h0, c0); (h1, cX); (h2, cY)]
  = Returned
      {| pendiente := b;
         interseccion := a;
         coef_correlacion := r;
         coef_determinacion := Fpow_two r;
         error_estandar :=
           Fpow_half (Series_sum (map Fpow2 (residuos a b X Y))
                      / FofZ (Z.of_nat (List.length X) - 2)) |}.
Proof.
  intros EX EY. unfold calcular_estadisticos.
  cbn [iloc nth_error bind]. rewrite EX, EY. reflexivity.
Qed.


(** On a table of integers. *)
Lemma calcular_estadisticos_tabla_xy (ids : list string) (X Y : list Z) :
  let Xf := map FofZ X in
  let Yf := map FofZ Y in
  let b := Series_cov Xf Yf / Series_var Xf in
  let a := Series_mean Yf - b * Series_mean Xf in
  let r := Series_corr Xf Yf in
  calcular_estadisticos (tabla_xy ids X Y)
  = Returned
      {| pendiente := b;
         interseccion := a;
         coef_correlacion := r;
         coef_determinacion := Fpow_two r;
         error_estandar :=
           Fpow_half (Series_sum (map Fpow2 (residuos a b Xf Yf))
                      / FofZ (Z.of_nat (List.length Xf) - 2)) |}.
Proof. reflexivity. Qed.

(** The engine returns on every table the loader accepted, whatever the
    dtypes of its two numeric columns. *)
Lemma calcular_estadisticos_valido
    (read_excel : string -> outcome (@DataFrame F)) (filepath : string)
    (d : @DataFrame F) :
  cargar_y_validar_datos read_excel filepath = (Some d, None) ->
  exists X Y s,
    columna d 1 = Returned X /\
    columna d 2 = Returned Y /\
    calcular_estadisticos d = Returned s.
Proof.
  intros E. apply cargar_valido_inv in E.
  destruct E as (_ & _ & h0 & c0 & h1 & cX & h2 & cY & X & Y & D & _ & _
                 & EX & EY & _).
  subst d. exists X, Y. eexists.
  split; [exact EX |]. split; [exact EY |].
  exact (calcular_estadisticos_tabla _ _ _ _ _ _ X Y EX EY).
Qed.

(** When the engine returns, columns 1 and 2 convert to numbers and the
    record is the one computed from them. *)
Lemma calcular_estadisticos_inv (d : @DataFrame F) (s : @Stats F) :
  calcular_estadisticos d = Returned s ->
  exists X Y,
    columna d 1 = Returned X /\
    columna d 2 = Returned Y /\
    let b := Series_cov X Y / Series_var X in
    let a := Series_mean Y - b * Series_mean X in
    s = {| pendiente := b;
           interseccion := a;
           coef_correlacion := Series_corr X Y;
           coef_determinacion := Fpow_two (Series_corr X Y);
           error_estandar :=
             Fpow_half (Series_sum (map Fpow2 (residuos a b X Y))
                        / FofZ (Z.of_nat (List.length X) - 2)) |}.
Proof.
  unfold calcular_estadisticos, columna. intros E.
  destruct (iloc d 1) as [c1 |]; [| discriminate E].
  destruct (iloc d 2) as [c2 |]; [| discriminate E].
  cbn [bind] in E |- *.
  destruct (values c1) as [X |]; [| discriminate E].
  destruct (values c2) as [Y |]; [| discriminate E].
  cbn [bind] in E. inversion E.
  exists X, Y. repeat split.
Qed.

End EngineFacts.

(** ** binary64 facts *)

Section Binary64.

Local Open Scope float_scope.

Lemma Prim2SF_inj (x y : float) : Prim2SF x = Prim2SF y -> x = y.
Proof.
  intros E.
  rewrite <- (SF2Prim_Prim2SF x), <- (SF2Prim_Prim2SF y).
  now rewrite E.
Qed.

(** A quotient by zero is NaN or an infinity. *)
Lemma div_zero (x : float) :
  x / 0 = nan \/ x / 0 = infinity \/ x / 0 = neg_infinity.
Proof.
  pose proof (div_spec x 0) as D.
  change (Prim2SF 0) with (S754_zero false) in D.
  unfold SF64div, SFdiv in D.
  destruct (Prim2SF x) as [s | s | | s m e].
  - left. apply Prim2SF_inj. exact D.
  - destruct s; [right; right | right; left]; apply Prim2SF_inj; exact D.
  - left. apply Prim2SF_inj. exact D.
  - destruct s; [right; right | right; left]; apply Prim2SF_inj; exact D.
Qed.

Lemma Prim2SF_nan : Prim2SF nan = S754_nan.
Proof. reflexivity. Qed.

Lemma div_nan_r (x : float) : x / nan = nan.
Proof.
  apply Prim2SF_inj. rewrite div_spec, Prim2SF_nan.
  unfold SF64div, SFdiv. destruct (Prim2SF x); reflexivity.
Qed.

Lemma mul_nan_l (x : float) : nan * x = nan.
Proof. apply Prim2SF_inj. rewrite mul_spec, Prim2SF_nan. reflexivity. Qed.

Lemma sub_nan_r (x : float) : x - nan = nan.
Proof.
  apply Prim2SF_inj. rewrite sub_spec, Prim2SF_nan.
  unfold SF64sub, SFsub. destruct (Prim2SF x); reflexivity.
Qed.

(** There is one NaN. *)
Lemma is_nan_nan (x : float) : is_nan x = true -> x = nan.
Proof.
  unfold is_nan. rewrite FloatAxioms.eqb_spec. intros E.
  apply Prim2SF_inj. rewrite Prim2SF_nan.
  destruct (Prim2SF x) as [s | s | | s m e]; try reflexivity;
    exfalso; revert E; unfold SFeqb, SFcompare.
  - discriminate.
  - destruct s; discriminate.
  - destruct s; rewrite Z.compare_refl, Pos.compare_cont_refl; discriminate.
Qed.

(** A binary64 number is NaN, [-inf], negative and finite, a zero, or
    positive. *)
Lemma clases_de_binary64 (x : float) :
  x = nan \/ x = neg_infinity \/
  ((x <? 0) = true /\ x <> neg_infinity) \/
  (x =? 0) = true \/ (0 <? x) = true.
Proof.
  rewrite !ltb_spec, FloatAxioms.eqb_spec.
  change (Prim2SF 0) with (S754_zero false).
  destruct (Prim2SF x) as [s | s | | s m e] eqn:E.
  - right; right; right; left. reflexivity.
  - destruct s.
    + right; left. apply Prim2SF_inj. rewrite E. reflexivity.
    + right; right; right; right. reflexivity.
  - left. apply Prim2SF_inj. rewrite E. reflexivity.
  - destruct s.
    + right; right; left. split; [reflexivity |].
      intros A. subst x.
      change (Prim2SF neg_infinity) with (S754_infinity true) in E.
      discriminate E.
    + right; right; right; right. reflexivity.
Qed.

(** A square root is NaN or not below zero. *)
Lemma sqrt_no_negativa (x : float) :
  PrimFloat.sqrt x = nan \/ (0 <=? PrimFloat.sqrt x) = true.
Proof.
  rewrite leb_spec.
  pose proof (sqrt_spec x) as S.
  change (Prim2SF 0) with (S754_zero false).
  unfold SF64sqrt, SFsqrt in S.
  destruct (Prim2SF x) as [s | s | | s m e].
  - right. rewrite S. reflexivity.
  - destruct s.
    + left. apply Prim2SF_inj. exact S.
    + right. rewrite S. reflexivity.
  - left. apply Prim2SF_inj. exact S.
  - destruct s.
    + left. apply Prim2SF_inj. exact S.
    + destruct (SFsqrt_core_binary prec emax (Z.pos m) e) as [[mz ez] lz].
      unfold binary_round_aux in S.
      destruct (shr_fexp prec emax mz ez lz) as [mrs' e'].
      destruct (shr_fexp prec emax _ e' loc_Exact) as [mrs'' e''].
      destruct (shr_m mrs'') as [| p | p].
      * right. rewrite S. reflexivity.
      * destruct (e'' <=? emax - prec)%Z; right; rewrite S; reflexivity.
      * left. apply Prim2SF_inj. exact S.
Qed.

Lemma pow_half_no_negativa (x : float) :
  Float64.pow_half x = nan \/ (0 <=? Float64.pow_half x) = true.
Proof.
  unfold Float64.pow_half.
  destruct (x =? neg_infinity); [right; reflexivity |].
  destruct (x =? zero); [right; reflexivity |].
  apply sqrt_no_negativa.
Qed.

(** The square root of a negative finite number is NaN. *)
Lemma sqrt_negativo (x : float) :
  (x <? 0) = true -> x <> neg_infinity -> PrimFloat.sqrt x = nan.
Proof.
  rewrite ltb_spec. change (Prim2SF 0) with (S754_zero false).
  intros L N. apply Prim2SF_inj. rewrite sqrt_spec, Prim2SF_nan.
  unfold SF64sqrt, SFsqrt.
  destruct (Prim2SF x) as [s | s | | s m e] eqn:E; try discriminate L.
  - destruct s; [reflexivity | discriminate L].
  - destruct s; [reflexivity | discriminate L].
Qed.

Lemma eqb_neg_infinity (x : float) :
  (x =? neg_infinity) = true -> x = neg_infinity.
Proof.
  rewrite FloatAxioms.eqb_spec.
  change (Prim2SF neg_infinity) with (S754_infinity true).
  intros E. apply Prim2SF_inj.
  change (Prim2SF neg_infinity) with (S754_infinity true).
  destruct (Prim2SF x) as [s | s | | s m e]; try discriminate E.
  destruct s; [reflexivity | discriminate E].
Qed.

Lemma ltb_eqb_zero (x : float) :
  (x <? 0) = true \/ (0 <? x) = true -> (x =? 0) = false.
Proof.
  rewrite !ltb_spec, FloatAxioms.eqb_spec.
  change (Prim2SF 0) with (S754_zero false).
  destruct (Prim2SF x) as [s | s | | s m e]; intros [L | L];
    try discriminate L; try reflexivity; destruct s; try discriminate L;
    reflexivity.
Qed.

Lemma eqb_zero_neg_infinity (x : float) :
  (x =? 0) = true -> (x =? neg_infinity) = false.
Proof.
  rewrite !FloatAxioms.eqb_spec.
  change (Prim2SF 0) with (S754_zero false).
  change (Prim2SF neg_infinity) with (S754_infinity true).
  destruct (Prim2SF x) as [s | s | | s m e]; intros E;
    try discriminate E; try reflexivity; destruct s; discriminate E.
Qed.

(** [Float64.pow] is a power function of the C standard. *)
Lemma Float64_pow_libm : libm_pow Float64.pow.
Proof.
  assert (U : forall x, Float64.pow x 0.5 = Float64.pow_half x).
  { intros x. unfold Float64.pow.
    change (0.5 =? 2) with false. change (0.5 =? 0.5) with true. reflexivity. }
  split; try (vm_compute; reflexivity).
  - intros x Z. rewrite U. unfold Float64.pow_half.
    change zero with 0 in *.
    now rewrite (eqb_zero_neg_infinity x Z), Z.
  - intros x L N. rewrite U. unfold Float64.pow_half.
    change zero with 0 in *.
    destruct (x =? neg_infinity) eqn:I.
    + apply eqb_neg_infinity in I. contradiction.
    + rewrite (ltb_eqb_zero x (or_introl L)). now apply sqrt_negativo.
  - intros x L. rewrite U. apply pow_half_no_negativa.
Qed.

(** *** The order of binary64

    [<=] orders the values that are not NaN: it is reflexive, total and
    transitive on them. *)

Lemma SFleb_refl (f : spec_float) : f <> S754_nan -> SFleb f f = true.
Proof.
  unfold SFleb, SFcompare.
  destruct f as [s | s | | s m e]; intros N; try reflexivity; try congruence.
  - destruct s; reflexivity.
  - destruct s; rewrite Z.compare_refl, Pos.compare_cont_refl; reflexivity.
Qed.

Lemma SFleb_total (f g : spec_float) :
  f <> S754_nan -> g <> S754_nan -> SFleb f g = false -> SFleb g f = true.
Proof.
  unfold SFleb, SFcompare.
  destruct f as [s1 | s1 | | s1 m1 e1], g as [s2 | s2 | | s2 m2 e2];
    intros N1 N2; try congruence; try (destruct s1, s2; cbn; congruence);
    try (destruct s1; cbn; congruence); try (destruct s2; cbn; congruence).
  destruct s1, s2; try (cbn; congruence).
  all: change (Pos.compare_cont Eq) with Pos.compare.
  all: destruct (Z.compare_spec e1 e2), (Z.compare_spec e2 e1); try lia;
         cbn; try congruence; subst.
  all: destruct (Pos.compare_spec m1 m2), (Pos.compare_spec m2 m1);
         cbn; try congruence; subst; try lia.
Qed.

Lemma SFleb_trans (f g h : spec_float) :
  SFleb f g = true -> SFleb g h = true -> SFleb f h = true.
Proof.
  unfold SFleb, SFcompare.
  destruct f as [s1 | s1 | | s1 m1 e1], g as [s2 | s2 | | s2 m2 e2],
           h as [s3 | s3 | | s3 m3 e3];
    try discriminate; try reflexivity;
    try (destruct s1, s2, s3; cbn; (discriminate || reflexivity));
    try (destruct s1, s2; cbn; (discriminate || reflexivity));
    try (destruct s1, s3; cbn; (discriminate || reflexivity));
    try (destruct s2, s3; cbn; (discriminate || reflexivity)).
  all: destruct s1, s2, s3; try (cbn; discriminate); try reflexivity.
  all: change (Pos.compare_cont Eq) with Pos.compare.
  all: destruct (Z.compare_spec e1 e2), (Z.compare_spec e2 e3),
         (Z.compare_spec e1 e3); try lia; cbn; try discriminate;
         try reflexivity; subst.
  all: destruct (Pos.compare_spec m1 m2), (Pos.compare_spec m2 m3),
         (Pos.compare_spec m1 m3); cbn; try discriminate; try reflexivity;
         subst; try lia.
Qed.

Lemma no_nan_Prim2SF (x : float) : is_nan x = false -> Prim2SF x <> S754_nan.
Proof.
  intros N E. rewrite <- Prim2SF_nan in E. apply Prim2SF_inj in E.
  subst x. discriminate N.
Qed.

Lemma leb_refl (x : float) : is_nan x = false -> (x <=? x) = true.
Proof.
  intros N. rewrite leb_spec. apply SFleb_refl. now apply no_nan_Prim2SF.
Qed.

Lemma leb_total (x y : float) :
  is_nan x = false -> is_nan y = false -> (x <=? y) = false -> (y <=? x) = true.
Proof.
  rewrite !leb_spec. intros Nx Ny.
  apply SFleb_total; now apply no_nan_Prim2SF.
Qed.

Lemma leb_trans (x y z : float) :
  (x <=? y) = true -> (y <=? z) = true -> (x <=? z) = true.
Proof. rewrite !leb_spec. apply SFleb_trans. Qed.

(** The reductions [min] and [max] over values none of which is NaN end on
    a value of the list that none is below, or above. *)
Lemma fold_left_minimum (xs : list float) (a : float) :
  is_nan a = false -> (forall x, In x xs -> is_nan x = false) ->
  let m := fold_left Float64.minimum xs a in
  (m = a \/ In m xs) /\ (m <=? a) = true /\
  forall x, In x xs -> (m <=? x) = true.
Proof.
  revert a. induction xs as [| b t IH]; intros a Na N; cbn zeta.
  - cbn. split; [now left |]. split; [now apply leb_refl | intros x []].
  - cbn [fold_left].
    assert (Nb : is_nan b = false) by (apply N; now left).
    assert (Nt : forall x, In x t -> is_nan x = false)
      by (intros x I; apply N; now right).
    change (Float64.minimum a b) with (if (a <=? b) || is_nan a then a else b).
    rewrite Na, orb_false_r.
    destruct (a <=? b) eqn:L.
    + destruct (IH a Na Nt) as [M [La Lt]]. cbn zeta in *.
      split; [destruct M as [M | M]; [now left | right; now right] |].
      split; [exact La |].
      intros x [E | I]; [subst x; now apply leb_trans with a | now apply Lt].
    + destruct (IH b Nb Nt) as [M [Lb Lt]]. cbn zeta in *.
      pose proof (leb_total a b Na Nb L) as Lba.
      split; [right; destruct M as [M | M]; [now left | now right] |].
      split; [now apply leb_trans with b |].
      intros x [E | I]; [subst x; exact Lb | now apply Lt].
Qed.

Lemma fold_left_maximum (xs : list float) (a : float) :
  is_nan a = false -> (forall x, In x xs -> is_nan x = false) ->
  let m := fold_left Float64.maximum xs a in
  (m = a \/ In m xs) /\ (a <=? m) = true /\
  forall x, In x xs -> (x <=? m) = true.
Proof.
  revert a. induction xs as [| b t IH]; intros a Na N; cbn zeta.
  - cbn. split; [now left |]. split; [now apply leb_refl | intros x []].
  - cbn [fold_left].
    assert (Nb : is_nan b = false) by (apply N; now left).
    assert (Nt : forall x, In x t -> is_nan x = false)
      by (intros x I; apply N; now right).
    change (Float64.maximum a b) with (if (b <=? a) || is_nan a then a else b).
    rewrite Na, orb_false_r.
    destruct (b <=? a) eqn:L.
    + destruct (IH a Na Nt) as [M [La Lt]]. cbn zeta in *.
      split; [destruct M as [M | M]; [now left | right; now right] |].
      split; [exact La |].
      intros x [E | I]; [subst x; now apply leb_trans with a | now apply Lt].
    + destruct (IH b Nb Nt) as [M [Lb Lt]]. cbn zeta in *.
      pose proof (leb_total b a Nb Na L) as Lab.
      split; [right; destruct M as [M | M]; [now left | now right] |].
      split; [now apply leb_trans with b |].
      intros x [E | I]; [subst x; exact Lb | now apply Lt].
Qed.

End Binary64.

(** ** Conversions and exact values on binary64 *)

Section Binary64Exact.

Local Open Scope float_scope.

(** Shifting a mantissa to the right keeps it from going negative. *)
Lemma shr_1_no_negativa (mrs : shr_record) :
  (0 <= shr_m mrs)%Z -> (0 <= shr_m (shr_1 mrs))%Z.
Proof.
  destruct mrs as [m r s]. cbn [shr_m]. intros P.
  destruct m as [| [p | p |] | p]; cbn; lia.
Qed.

Lemma iter_shr_1_no_negativa (p : positive) (mrs : shr_record) :
  (0 <= shr_m mrs)%Z -> (0 <= shr_m (SpecFloat.iter_pos shr_1 p mrs))%Z.
Proof.
  revert mrs. induction p as [p IH | p IH |]; intros mrs P; cbn [SpecFloat.iter_pos].
  - apply IH, IH, shr_1_no_negativa, P.
  - apply IH, IH, P.
  - apply shr_1_no_negativa, P.
Qed.

Lemma shr_fexp_no_negativa (m e : Z) (l : location) :
  (0 <= m)%Z -> (0 <= shr_m (fst (shr_fexp prec emax m e l)))%Z.
Proof.
  intros P. unfold shr_fexp, shr.
  assert (Q : (0 <= shr_m (shr_record_of_loc m l))%Z).
  { destruct l as [| []]; exact P. }
  destruct (fexp prec emax (Zdigits2 m + e) - e)%Z; cbn [fst]; try exact Q.
  apply iter_shr_1_no_negativa, Q.
Qed.

(** Rounding a mantissa that is not negative gives no NaN. *)
Lemma binary_round_aux_no_nan (sx : bool) (mx ex : Z) (lx : location) :
  (0 <= mx)%Z -> binary_round_aux prec emax sx mx ex lx <> S754_nan.
Proof.
  intros P. unfold binary_round_aux.
  pose proof (shr_fexp_no_negativa mx ex lx P) as Q.
  destruct (shr_fexp prec emax mx ex lx) as [mrs' e']. cbn [fst] in Q.
  assert (R : (0 <= round_nearest_even (shr_m mrs') (loc_of_shr_record mrs'))%Z).
  { unfold round_nearest_even.
    destruct (loc_of_shr_record mrs') as [| []]; try lia.
    destruct (Z.even (shr_m mrs')); lia. }
  pose proof (shr_fexp_no_negativa _ e' loc_Exact R) as T.
  destruct (shr_fexp prec emax _ e' loc_Exact) as [mrs'' e'']. cbn [fst] in T.
  destruct (shr_m mrs'') as [| p | p]; [discriminate | | lia].
  destruct (e'' <=? emax - prec)%Z; discriminate.
Qed.

(** The conversion of an integer is never NaN. *)
Lemma of_uint63_no_nan (n : PrimInt63.int) : is_nan (of_uint63 n) = false.
Proof.
  destruct (is_nan (of_uint63 n)) eqn:E; [| reflexivity].
  apply is_nan_nan in E. apply (f_equal Prim2SF) in E.
  rewrite of_uint63_spec, Prim2SF_nan in E.
  unfold binary_normalize in E.
  destruct (Uint63.to_Z n) as [| m | m]; try discriminate E.
  - exfalso. revert E. unfold binary_round.
    destruct (shl_align m 0 _) as [mz ez].
    apply binary_round_aux_no_nan. lia.
  - exfalso. revert E. unfold binary_round.
    destruct (shl_align m 0 _) as [mz ez].
    apply binary_round_aux_no_nan. lia.
Qed.

Lemma opp_no_nan (x : float) : is_nan x = false -> is_nan (- x) = false.
Proof.
  intros N. destruct (is_nan (- x)) eqn:E; [| reflexivity].
  apply is_nan_nan in E. apply (f_equal Prim2SF) in E.
  rewrite opp_spec, Prim2SF_nan in E.
  destruct (Prim2SF x) eqn:P; try discriminate E.
  assert (A : x = nan) by (apply Prim2SF_inj; rewrite P; reflexivity).
  subst x. discriminate N.
Qed.

Lemma of_Z_no_nan (z : Z) : is_nan (Float64.of_Z z) = false.
Proof.
  destruct z as [| p | p]; cbn [Float64.of_Z].
  - reflexivity.
  - apply of_uint63_no_nan.
  - destruct (Z.pos p =? 2 ^ 63)%Z; [reflexivity |].
    apply opp_no_nan, of_uint63_no_nan.
Qed.




End Binary64Exact.

(** ** The engine on binary64 *)

Section EngineBinary64.

Variable pow : float -> float -> float.
Hypothesis pow_ok : libm_pow pow.
Let libm : Number float := binary64 pow.
#[local] Existing Instance libm | 0.
Variable read_excel : string -> outcome (@DataFrame float).

(** [** 0.5] of a quotient by zero is NaN or [+inf]. *)
Lemma pow_half_div_zero (x : float) :
  pow (x / 0)%float 0.5%float = nan \/ pow (x / 0)%float 0.5%float = infinity.
Proof.
  destruct (div_zero x) as [E | [E | E]]; rewrite E.
  - left. apply (pow_nan_half pow_ok).
  - right. apply (pow_inf_half pow_ok).
  - right. apply (pow_neg_inf_half pow_ok).
Qed.

(** C1, as the code has it.  The engine has no error path: on every table the
    loader accepted, a constant X and fewer than three rows included, it
    returns a record.  With two rows the sum of squared residuals is divided by
    [n - 2 = 0], and the standard error it returns is NaN or [+inf]. *)
Theorem calcular_estadisticos_sin_error (filepath : string)
    (d : @DataFrame float) :
  cargar_y_validar_datos read_excel filepath = (Some d, None) ->
  exists X Y s,
    columna d 1 = Returned X /\
    columna d 2 = Returned Y /\
    calcular_estadisticos d = Returned s /\
    (List.length X = 2 ->
     error_estandar s = nan \/ error_estandar s = infinity).
Proof.
  intros E. apply cargar_valido_inv in E.
  destruct E as (_ & _ & h0 & c0 & h1 & cX & h2 & cY & X & Y & D & _ & _
                 & EX & EY & _).
  subst d. exists X, Y. eexists.
  split; [exact EX |]. split; [exact EY |].
  split; [exact (calcular_estadisticos_tabla _ _ _ _ _ _ X Y EX EY) |].
  intros L. cbn [error_estandar]. rewrite L.
  apply pow_half_div_zero.
Qed.

(** C7. On a table the loader accepted, with pairwise distinct X and at least
    three rows, the engine returns one record and no other; the record depends
    on the table alone: the handler [estadisticos] renders it whatever the
    sliders hold. *)
Theorem calcular_estadisticos_determinista (filepath : string)
    (d : @DataFrame float) (X : list float) :
  cargar_y_validar_datos read_excel filepath = (Some d, None) ->
  columna d 1 = Returned X ->
  NoDup X ->
  3 <= List.length X ->
  exists s,
    calcular_estadisticos d = Returned s /\
    (forall run, calcular_estadisticos d = run -> run = Returned s) /\
    (forall input f,
       file input = Some f -> datapath f = filepath ->
       estadisticos read_excel input = Returned (Lista s)).
Proof.
  intros E _ _ _.
  destruct (calcular_estadisticos_valido read_excel filepath d E)
    as [X' [Y [s [_ [_ Es]]]]].
  exists s. split; [exact Es |]. split.
  - intros run R. now rewrite <- R.
  - intros input f Ef Ep. unfold estadisticos.
    rewrite Ef, Ep, E, Es. reflexivity.
Qed.

End EngineBinary64.

(** The claim of C1 fails: on a table the loader accepts, with the constant X
    column [1, 1, 1], the engine raises nothing; it returns, and the slope it
    returns is NaN. *)
Lemma x_constante_devuelve_nan :
  cargar_y_validar_datos (F:=float) (en_disco x_constante) "datos.xlsx"
  = (Some x_constante, None) /\
  iloc (F:=float) x_constante 1 = Returned (IntSeries [1; 1; 1]%Z) /\
  calcular_estadisticos (F:=float) x_constante
  = Returned {| pendiente := nan;
                interseccion := nan;
                coef_correlacion := nan;
                coef_determinacion := nan;
                error_estandar := 0%float |} /\
  forall exn, calcular_estadisticos (F:=float) x_constante <> Raised exn.
Proof.
  split; [vm_compute; reflexivity |].
  split; [vm_compute; reflexivity |].
  split; [vm_compute; reflexivity |].
  intros exn A. vm_compute in A. discriminate A.
Qed.

(** Two rows: the standard error comes back as NaN. *)
Lemma calcular_estadisticos_sin_error_witness :
  exists s,
    calcular_estadisticos (F:=float) dos_filas = Returned s /\
    (error_estandar s = nan \/ error_estandar s = infinity).
Proof.
  assert (V : cargar_y_validar_datos (F:=float) (en_disco dos_filas) "datos.xlsx"
              = (Some dos_filas, None)) by (vm_compute; reflexivity).
  destruct (calcular_estadisticos_sin_error Float64.pow Float64_pow_libm
              (en_disco dos_filas) "datos.xlsx" dos_filas V)
    as [X [Y [s [EX [_ [Es L]]]]]].
  exists s. split; [exact Es |].
  apply L. inversion EX. reflexivity.
Defined.

(** Two closed floats that differ. *)
Ltac floats_differ :=
  let A := fresh "A" in
  intros A; vm_compute in A; apply (f_equal Prim2SF) in A;
  vm_compute in A; discriminate A.

Lemma calcular_estadisticos_determinista_witness :
  exists s,
    calcular_estadisticos (F:=float) recta_perfecta = Returned s /\
    (forall run, calcular_estadisticos recta_perfecta = run -> run = Returned s) /\
    (forall input f,
       file input = Some f -> datapath f = "datos.xlsx"%string ->
       estadisticos (en_disco recta_perfecta) input = Returned (Lista s)).
Proof.
  apply (calcular_estadisticos_determinista Float64.pow
           (en_disco recta_perfecta)
           "datos.xlsx" recta_perfecta (map FofZ [1; 2; 3; 4; 5]%Z)).
  - vm_compute. reflexivity.
  - reflexivity.
  - repeat (apply NoDup_cons;
            [ cbn [In map]; intros D;
              repeat (destruct D as [D | D]; [revert D; floats_differ |]);
              exact D | ]).
    apply NoDup_nil.
  - cbn. lia.
Defined.

(** The example of the specification on binary64: four of its six numbers come
    out as stated; the correlation coefficient and its square come out one and
    two units in the last place below 1. *)
Lemma recta_perfecta_binary64 :
  calcular_estadisticos (F:=float) recta_perfecta
  = Returned {| pendiente := 2%float;
                interseccion := 0%float;
                coef_correlacion := 0x1.fffffffffffffp-1%float;
                coef_determinacion := 0x1.ffffffffffffep-1%float;
                error_estandar := 0%float |} /\
  interpretacion (F:=float) (en_disco recta_perfecta) entrada_seis
  = Returned (Prediccion 6 12%float).
Proof. split; vm_compute; reflexivity. Qed.

(** The claim of C4 fails in its third and fourth number: the engine returns
    neither [r = 1.0] nor [r_squared = 1.0]. *)
Lemma recta_perfecta_r_no_es_uno :
  exists s,
    calcular_estadisticos (F:=float) recta_perfecta = Returned s /\
    coef_correlacion s <> 1%float /\
    coef_determinacion s <> 1%float.
Proof.
  eexists. split; [apply recta_perfecta_binary64 |].
  split; cbn [coef_correlacion coef_determinacion]; floats_differ.
Qed.


(** ** The plot and the hypothetical point *)

Section PlotFacts.

Context {F : Type} `{Number F}.
Local Open Scope string_scope.
Local Open Scope num_scope.

(** The traces of the figure, on a table of three columns whose second has
    the extremes [hi] and [lo] and the range [rg]. *)
Lemma crear_grafico_interactivo_tabla (h0 h1 h2 : @pyobj F)
    (c0 cX cY : @Series F) (a b : F) (xh : option F) (hi lo rg : @scalar F) :
  Series_max_scalar cX = Returned hi ->
  Series_min_scalar cX = Returned lo ->
  scalar_sub hi lo = Returned rg ->
  let x0 := to_float lo - to_float rg * Fhalf in
  let x1 := to_float hi + to_float rg * Fhalf in
  exists fig,
    crear_grafico_interactivo [(h0, c0); (h1, cX); (h2, cY)] a b xh
    = Returned fig /\
    xaxis_title fig = h1 /\ yaxis_title fig = h2 /\
    fig_data fig =
      {| sc_x := cX; sc_y := cY; sc_mode := "markers";
         sc_color := None; sc_name := Datos |}
      :: {| sc_x := NumSeries [x0; x1];
            sc_y := NumSeries [predict a b x0; predict a b x1];
            sc_mode := "lines"; sc_color := None; sc_name := Recta a b |}
      :: match xh with
         | Some x => [{| sc_x := NumSeries [x]; sc_y := NumSeries [predict a b x];
                         sc_mode := "markers"; sc_color := Some "gold";
                         sc_name := Punto_hipotetico |}]
         | None => []
         end.
Proof.
  intros Ehi Elo Erg x0 x1. unfold crear_grafico_interactivo.
  cbn [iloc nth_error bind]. rewrite Ehi, Elo. cbn [bind]. rewrite Erg.
  eexists. split; [reflexivity |].
  destruct xh; repeat split.
Qed.

(** A numeric column has extremes; they can be subtracted unless they are
    truth values. *)
Lemma extremos_de_columna (cX : @Series F) :
  is_numeric_dtype cX = true ->
  exists hi lo,
    Series_max_scalar cX = Returned hi /\
    Series_min_scalar cX = Returned lo /\
    match cX with
    | BoolSeries (_ :: _) => scalar_sub hi lo = Raised "TypeError"
    | _ => exists rg, scalar_sub hi lo = Returned rg
    end.
Proof.
  destruct cX as [xs | [| z zs] | [| c bs] | cells]; cbn; intros E;
    try discriminate E; do 2 eexists; repeat split; eexists; reflexivity.
Qed.

(** Without wrap-around the range the plot computes is the range. *)
Lemma scalar_sub_sin_desborde (cX : @Series F) (hi lo rg : @scalar F) :
  Series_max_scalar cX = Returned hi ->
  Series_min_scalar cX = Returned lo ->
  scalar_sub hi lo = Returned rg ->
  sin_desborde cX ->
  to_float rg = rango_de hi lo.
Proof.
  destruct cX as [xs | [| z zs] | [| c bs] | cells]; cbn;
    intros Ehi Elo Erg S; inversion Ehi; inversion Elo; subst hi lo;
    cbn in Erg; inversion Erg; try reflexivity.
  cbn [to_float rango_de]. f_equal.
  assert (P : forall l a, (fold_left Z.min l a <= a <= fold_left Z.max l a)%Z).
  { induction l as [| y l IH]; intros a0; cbn [fold_left]; [lia |].
    pose proof (IH (Z.min a0 y)). pose proof (IH (Z.max a0 y)).
    assert (Q : forall l a a', (a <= a')%Z ->
                  (fold_left Z.min l a <= fold_left Z.min l a')%Z /\
                  (fold_left Z.max l a <= fold_left Z.max l a')%Z).
    { clear. induction l as [| y l IH]; intros a a' L; cbn [fold_left];
        [lia |].
      split; [apply (IH (Z.min a y) (Z.min a' y)) |
              apply (IH (Z.max a y) (Z.max a' y))]; lia. }
    pose proof (Q l (Z.min a0 y) a0 ltac:(lia)).
    pose proof (Q l a0 (Z.max a0 y) ltac:(lia)). lia. }
  pose proof (P zs z).
  unfold wrap64. rewrite Z.mod_small by lia. lia.
Qed.

(** C9. Whatever the sliders hold (a sign of -1 or +1, three digits from 0 to
    9), the X that the handlers compose is sign (100 hundreds + 10 tens +
    units) and lies between -999 and 999; over a file the loader accepts,
    [interpretacion] pairs it with [a + b X] for the intercept [a] and slope
    [b] the engine returned. *)
Theorem x_hypothetical_rango
    (read_excel : string -> outcome (@DataFrame F)) (input : Input)
    (f : FileInfo) (d : @DataFrame F) :
  slider_values input ->
  file input = Some f ->
  cargar_y_validar_datos read_excel (datapath f) = (Some d, None) ->
  let x := (signo input
            * (100 * centenas input + 10 * decenas input + unidades input))%Z in
  x_hypothetical_of input = x /\
  (-999 <= x <= 999)%Z /\
  exists s,
    calcular_estadisticos d = Returned s /\
    interpretacion read_excel input
    = Returned (Prediccion x (interseccion s + pendiente s * FofZ x)).
Proof.
  intros [Hs [Hc [Hd Hu]]] Ef E x.
  assert (Ex : x_hypothetical_of input = x)
    by (unfold x, x_hypothetical_of; ring).
  split; [exact Ex |]. split.
  - unfold x. destruct Hs as [Hs | Hs]; rewrite Hs; lia.
  - destruct (calcular_estadisticos_valido read_excel (datapath f) d E)
      as [X [Y [s [_ [_ Es]]]]].
    exists s. split; [exact Es |].
    unfold interpretacion. rewrite Ef, E, Es. cbn [bind]. now rewrite Ex.
Qed.

End PlotFacts.

Lemma x_hypothetical_rango_witness :
  x_hypothetical_of entrada_seis = 6%Z /\
  (-999 <= 6 <= 999)%Z /\
  exists s,
    calcular_estadisticos (F:=float) recta_perfecta = Returned s /\
    interpretacion (en_disco recta_perfecta) entrada_seis
    = Returned (Prediccion 6 (interseccion s + pendiente s * 6)%float).
Proof.
  assert (S : slider_values entrada_seis) by (unfold slider_values; cbn; lia).
  assert (V : cargar_y_validar_datos (F:=float) (en_disco recta_perfecta)
                "/tmp/datos.xlsx" = (Some recta_perfecta, None))
    by (vm_compute; reflexivity).
  exact (x_hypothetical_rango (en_disco recta_perfecta) entrada_seis
           {| name := "datos.xlsx"; datapath := "/tmp/datos.xlsx" |}
           recta_perfecta S eq_refl V).
Defined.

Section PlotBinary64.

Local Open Scope float_scope.

Variable pow : float -> float -> float.
Let libm : Number float := binary64 pow.
#[local] Existing Instance libm | 0.

(** binary64 multiplication commutes. *)
Lemma mul_comm_binary64 (x y : float) : x * y = y * x.
Proof.
  apply Prim2SF_inj. rewrite !mul_spec.
  unfold SF64mul, SFmul.
  destruct (Prim2SF x) as [sx | sx | | sx mx ex],
           (Prim2SF y) as [sy | sy | | sy my ey];
    try reflexivity; try (now rewrite xorb_comm).
  now rewrite xorb_comm, Pos.mul_comm, Z.add_comm.
Qed.

(** On a table the loader accepted whose X column does not hold truth values
    and whose range fits its dtype, the figure holds the data points, then the
    fitted line as one segment from [min X - 0.5 (max X - min X)] to
    [max X + 0.5 (max X - min X)] with the heights [a + b x] at the two ends,
    and, when a hypothetical X is given, one more trace, the single gold point
    [(x, a + b x)].  [min X] and [max X] are the least and the greatest entry
    of the column when it has a row. *)
Theorem crear_grafico_interactivo_segmento
    (read_excel : string -> outcome (@DataFrame float)) (filepath : string)
    (d : @DataFrame float) (cX : @Series float) (a b : float)
    (xh : option float) :
  cargar_y_validar_datos read_excel filepath = (Some d, None) ->
  iloc d 1 = Returned cX ->
  x_es_booleana d = false ->
  sin_desborde cX ->
  exists cY hi lo fig,
    iloc d 2 = Returned cY /\
    Series_max_scalar cX = Returned hi /\
    Series_min_scalar cX = Returned lo /\
    (len cX <> 0%nat -> extremos cX lo hi) /\
    crear_grafico_interactivo d a b xh = Returned fig /\
    let x0 := to_float lo - 0.5 * rango_de hi lo in
    let x1 := to_float hi + 0.5 * rango_de hi lo in
    exists puntos recta resaltados,
      fig_data fig = puntos :: recta :: resaltados /\
      sc_x puntos = cX /\ sc_y puntos = cY /\
      sc_mode recta = "lines"%string /\
      sc_x recta = NumSeries [x0; x1] /\
      sc_y recta = NumSeries [a + b * x0; a + b * x1] /\
      resaltados =
        match xh with
        | Some x => [{| sc_x := NumSeries [x]; sc_y := NumSeries [a + b * x];
                        sc_mode := "markers"; sc_color := Some "gold"%string;
                        sc_name := Punto_hipotetico |}]
        | None => []
        end.
Proof.
  intros E EX NB SD. apply cargar_valido_inv in E.
  destruct E as (_ & _ & h0 & c0 & h1 & cX' & h2 & cY & X & Y & D & NX & _
                 & _ & _ & Nn).
  subst d. cbn in EX. inversion EX; subst cX'. clear EX.
  assert (EXT : forall hi lo,
            Series_max_scalar cX = Returned hi ->
            Series_min_scalar cX = Returned lo ->
            len cX <> 0%nat -> extremos cX lo hi).
  { intros hi lo Ehi Elo L.
    destruct cX as [[| x xs] | [| z zs] | bs | cells]; cbn in L;
      try congruence; try exact I.
    - assert (N : forall y, In y (x :: xs) -> is_nan y = false).
      { intros y Iy. destruct (is_nan y) eqn:Ey; [| reflexivity].
        exfalso. apply Nn. exists (PyStr h1), (NumSeries (x :: xs)).
        split; [right; now left |]. exists y. now split. }
      assert (Fi : filter notna (x :: xs) = x :: xs).
      { apply forallb_filter_id. apply forallb_forall. intros y Iy.
        unfold notna. change (Fisnan y) with (is_nan y).
        now rewrite (N y Iy). }
      cbn [Series_max_scalar Series_min_scalar] in Ehi, Elo.
      unfold Series_max in Ehi. unfold Series_min in Elo.
      rewrite Fi in Ehi, Elo. inversion Ehi; inversion Elo.
      assert (Nx : is_nan x = false) by (apply N; now left).
      assert (Nxs : forall y, In y xs -> is_nan y = false)
        by (intros y Iy; apply N; now right).
      destruct (fold_left_minimum xs x Nx Nxs) as [Im [Lm Am]].
      destruct (fold_left_maximum xs x Nx Nxs) as [IM [LM AM]].
      cbn zeta in *.
      exists (fold_left Float64.minimum xs x), (fold_left Float64.maximum xs x).
      split; [reflexivity |]. split; [reflexivity |].
      split; [destruct Im as [Im | Im]; [left; now symmetry | now right] |].
      split; [destruct IM as [IM | IM]; [left; now symmetry | now right] |].
      intros y [Ey | Iy]; [subst y; now split | split; [now apply Am | now apply AM]].
    - cbn in Ehi, Elo. inversion Ehi; inversion Elo.
      exists (fold_left Z.min zs z), (fold_left Z.max zs z).
      split; [reflexivity |]. split; [reflexivity |].
      clear. revert z.
      assert (Q : forall zs z,
                (fold_left Z.min zs z = z \/ In (fold_left Z.min zs z) zs) /\
                (fold_left Z.max zs z = z \/ In (fold_left Z.max zs z) zs) /\
                (fold_left Z.min zs z <= z <= fold_left Z.max zs z)%Z /\
                forall y, In y zs ->
                  (fold_left Z.min zs z <= y <= fold_left Z.max zs z)%Z).
      { clear. induction zs as [| b t IH]; intros z; cbn [fold_left].
        - split; [now left |]. split; [now left |]. split; [lia | intros y []].
        - destruct (IH (Z.min z b)) as [Im [_ [Lm Am]]].
          destruct (IH (Z.max z b)) as [_ [IM [LM AM]]].
          split.
          { destruct Im as [Im | Im]; [| right; now right].
            rewrite Im. destruct (Z.min_spec z b) as [[_ E] | [_ E]];
              rewrite E; [now left | right; now left]. }
          split.
          { destruct IM as [IM | IM]; [| right; now right].
            rewrite IM. destruct (Z.max_spec z b) as [[_ E] | [_ E]];
              rewrite E; [right; now left | now left]. }
          split; [lia |].
          intros y [E | Iy]; [subst y; lia |].
          specialize (Am y Iy). specialize (AM y Iy). lia. }
      intros z. destruct (Q zs z) as [Im [IM [L A]]].
      split; [destruct Im as [Im | Im]; [left; now symmetry | now right] |].
      split; [destruct IM as [IM | IM]; [left; now symmetry | now right] |].
      intros y [E | Iy]; [subst y; exact L | now apply A]. }
  destruct (extremos_de_columna cX NX) as [hi [lo [Ehi [Elo Erg]]]].
  assert (R : exists rg, scalar_sub hi lo = Returned rg).
  { destruct cX as [xs | zs | [| c bs] | cells]; try exact Erg.
    cbn in NB. discriminate NB. }
  destruct R as [rg R].
  destruct (crear_grafico_interactivo_tabla (PyStr h0) (PyStr h1) (PyStr h2)
              c0 cX cY a b xh hi lo rg Ehi Elo R) as [fig [Ef [_ [_ Ed]]]].
  exists cY, hi, lo, fig.
  split; [reflexivity |]. split; [exact Ehi |]. split; [exact Elo |].
  split; [now apply EXT |].
  split; [exact Ef |].
  intros x0 x1. subst x0 x1.
  rewrite <- (scalar_sub_sin_desborde cX hi lo rg Ehi Elo R SD).
  rewrite (mul_comm_binary64 0.5 (to_float rg)).
  do 3 eexists. split; [exact Ed |].
  repeat split.
Qed.

End PlotBinary64.

(** C8.  The plot builder subtracts [X.min()] from [X.max()] in the dtype of
    the column.  On an [int64] column that spans 2^63 or more the subtraction
    wraps around: for an X from -6e18 to 6e18 the segment runs from about
    -2.78e18 to 2.78e18, not from -1.2e19 to 1.2e19, and does not reach the
    data.  On a column of truth values, which the loader takes for numeric
    and the engine converts, the two extremes are numpy booleans and numpy
    raises [TypeError]: over such a file the statistics and the prediction are
    shown and the plot handler fails. *)
Theorem crear_grafico_interactivo_defectos :
  (cargar_y_validar_datos (F:=float) (en_disco x_extensa) "/tmp/datos.xlsx"
   = (Some x_extensa, None) /\
   exists fig puntos recta,
     crear_grafico_interactivo (F:=float) x_extensa 0%float 1%float None
     = Returned fig /\
     fig_data fig = [puntos; recta] /\
     sc_x puntos
     = IntSeries [-6000000000000000000; 0; 6000000000000000000]%Z /\
     sc_x recta
     = NumSeries [(-0x1.3444835ec5800p+61)%float; 0x1.3444835ec5800p+61%float] /\
     (Float64.of_Z (-6000000000000000000)
      - 0.5 * (Float64.of_Z 6000000000000000000
               - Float64.of_Z (-6000000000000000000)))%float
     = (-0x1.4d1120d7b1600p+63)%float /\
     (Float64.of_Z 6000000000000000000
      + 0.5 * (Float64.of_Z 6000000000000000000
               - Float64.of_Z (-6000000000000000000)))%float
     = 0x1.4d1120d7b1600p+63%float /\
     (0x1.3444835ec5800p+61 <? Float64.of_Z 6000000000000000000)%float = true) /\
  (cargar_y_validar_datos (F:=float) (en_disco x_booleana) "/tmp/datos.xlsx"
   = (Some x_booleana, None) /\
   (exists s, estadisticos (F:=float) (en_disco x_booleana) entrada_seis
              = Returned (Lista s)) /\
   (forall a b xh,
      crear_grafico_interactivo (F:=float) x_booleana a b xh
      = Raised "TypeError") /\
   plot (F:=float) (en_disco x_booleana) entrada_seis = Raised "TypeError").
Proof.
  split.
  - split; [vm_compute; reflexivity |].
    do 3 eexists.
    split; [vm_compute; reflexivity |].
    split; [reflexivity |]. split; [reflexivity |].
    split; [reflexivity |].
    repeat split; vm_compute; reflexivity.
  - split; [vm_compute; reflexivity |].
    split; [eexists; vm_compute; reflexivity |].
    split; [intros a b xh; reflexivity |].
    vm_compute. reflexivity.
Qed.

Lemma crear_grafico_interactivo_segmento_witness :
  exists fig,
    crear_grafico_interactivo (F:=float) con_fracciones 0%float 2%float
      (Some 6%float) = Returned fig /\
    extremos (NumSeries [0.5; 2; 3]%float) (SFloat 0.5%float) (SFloat 3%float) /\
    exists puntos recta resaltados,
      fig_data fig = puntos :: recta :: resaltados /\
      sc_x recta = NumSeries [(-0.75)%float; 4.25%float] /\
      sc_y recta = NumSeries [(-1.5)%float; 8.5%float] /\
      List.length resaltados = 1 /\
      map sc_x resaltados = [NumSeries [6%float]] /\
      map sc_y resaltados = [NumSeries [12%float]].
Proof.
  assert (V : cargar_y_validar_datos (F:=float) (en_disco con_fracciones)
                "datos.xlsx" = (Some con_fracciones, None))
    by (vm_compute; reflexivity).
  destruct (crear_grafico_interactivo_segmento Float64.pow
              (en_disco con_fracciones)
              "datos.xlsx" con_fracciones (NumSeries [0.5; 2; 3]%float)
              0%float 2%float (Some 6%float) V eq_refl eq_refl I)
    as [cY [hi [lo [fig [_ [Ehi [Elo [EXT [Ef [p [r [h [Ed [_ [_ [_ [Ex [Ey Eh]]]]]]]]]]]]]]]]]].
  inversion Ehi; inversion Elo; subst hi lo.
  exists fig. split; [exact Ef |].
  split; [apply EXT; discriminate |].
  exists p, r, h. split; [exact Ed |].
  split; [rewrite Ex; vm_compute; reflexivity |].
  split; [rewrite Ey; vm_compute; reflexivity |].
  rewrite Eh. repeat split.
Defined.

(** ** Null-free columns *)

Section NullFree.

Context {F : Type} `{Number F}.
Local Open Scope num_scope.

Lemma map_fst_combine (A B : Type) (xs : list A) (ys : list B) :
  List.length xs = List.length ys -> map fst (combine xs ys) = xs.
Proof.
  revert ys.
  induction xs as [| x xs IH]; intros [| y ys] L; simpl in *;
    try discriminate; try reflexivity.
  f_equal. apply IH. lia.
Qed.

Lemma map_snd_combine (A B : Type) (xs : list A) (ys : list B) :
  List.length xs = List.length ys -> map snd (combine xs ys) = ys.
Proof.
  revert ys.
  induction xs as [| x xs IH]; intros [| y ys] L; simpl in *;
    try discriminate; try reflexivity.
  f_equal. apply IH. lia.
Qed.

(** A numeric column of a table without nulls converts to numbers none of
    which is NaN, in an arithmetic where the conversion of an integer is a
    number. *)
Lemma sin_nulo_columna (d : @DataFrame F) (h : @pyobj F) (c : @Series F)
    (X : list F) :
  (forall z, Fisnan (FofZ z) = false) ->
  ~ tiene_nulo d -> In (h, c) d -> values c = Returned X -> sin_nan X.
Proof.
  intros Z N I V. apply Forall_forall. intros x Hx.
  destruct c as [xs | zs | bs | cells]; cbn in V; inversion V; subst X.
  - destruct (Fisnan x) eqn:E; [| reflexivity].
    exfalso. apply N. exists h, (NumSeries xs). split; [exact I |].
    exists x. now split.
  - apply in_map_iff in Hx. destruct Hx as [z [E _]]. subst x. apply Z.
  - apply in_map_iff in Hx. destruct Hx as [b [E _]]. subst x. apply Z.
Qed.

(** Without NaN no row is dropped. *)
Lemma valid_pairs_sin_nan (X Y : list F) :
  sin_nan X -> sin_nan Y -> valid_pairs X Y = combine X Y.
Proof.
  unfold sin_nan, valid_pairs. rewrite !Forall_forall. intros NX NY.
  apply forallb_filter_id. apply forallb_forall.
  intros [x y] I. simpl. unfold notna.
  rewrite (NX x (in_combine_l _ _ _ _ I)), (NY y (in_combine_r _ _ _ _ I)).
  reflexivity.
Qed.

Lemma combine_no_vacio (X Y : list F) :
  List.length X = List.length Y -> X <> [] -> combine X Y <> [].
Proof.
  destruct X, Y; simpl; intros L N; try discriminate; congruence.
Qed.

(** On null-free columns of one length, [Series.cov] is numpy's covariance of
    the columns as they stand. *)
Lemma Series_cov_np_cov (ddof : Z) (X Y : list F) :
  sin_nan X -> sin_nan Y ->
  List.length X = List.length Y -> X <> [] ->
  Series_cov_ddof ddof X Y = np_cov ddof X Y.
Proof.
  intros NX NY L N. unfold Series_cov_ddof.
  rewrite (valid_pairs_sin_nan X Y NX NY).
  pose proof (combine_no_vacio X Y L N) as C.
  destruct (combine X Y) as [| p ps] eqn:E; [congruence |].
  rewrite <- E. now rewrite (map_fst_combine _ _ X Y L), (map_snd_combine _ _ X Y L).
Qed.

(** And [Series.corr] is the entry of numpy's correlation matrix. *)
Lemma Series_corr_np_corrcoef (X Y : list F) :
  sin_nan X -> sin_nan Y ->
  List.length X = List.length Y -> X <> [] ->
  Series_corr X Y = np_corrcoef X Y.
Proof.
  intros NX NY L N. unfold Series_corr.
  rewrite (valid_pairs_sin_nan X Y NX NY).
  pose proof (combine_no_vacio X Y L N) as C.
  destruct (combine X Y) as [| p ps] eqn:E; [congruence |].
  rewrite <- E. now rewrite (map_fst_combine _ _ X Y L), (map_snd_combine _ _ X Y L).
Qed.

(** The slope and the correlation coefficient of a validated table, written
    over sample ([ddof = 1]) covariances. *)
Lemma pendiente_y_correlacion_ddof_1
    (read_excel : string -> outcome (@DataFrame F)) (filepath : string)
    (d : @DataFrame F) (X Y : list F) :
  (forall z, Fisnan (FofZ z) = false) ->
  cargar_y_validar_datos read_excel filepath = (Some d, None) ->
  columna d 1 = Returned X ->
  columna d 2 = Returned Y ->
  List.length X = List.length Y ->
  X <> [] ->
  exists s,
    calcular_estadisticos d = Returned s /\
    pendiente s = Series_cov_ddof 1 X Y / Series_var_ddof 1 X /\
    Series_cov_ddof 1 X Y = np_cov 1 X Y /\
    coef_correlacion s
    = np_clip (np_cov 1 X Y / Fsqrt (np_cov 1 X X) / Fsqrt (np_cov 1 Y Y))
        (FofZ (-1)) (FofZ 1).
Proof.
  intros Z E EX EY L N. apply cargar_valido_inv in E.
  destruct E as (_ & _ & h0 & c0 & h1 & cX & h2 & cY & X' & Y' & D & _ & _
                 & EX' & EY' & Nn).
  subst d. unfold columna in EX, EY. cbn [iloc nth_error bind] in EX, EY.
  rewrite EX in EX'. rewrite EY in EY'.
  inversion EX'; inversion EY'; subst X' Y'.
  assert (NX : sin_nan X).
  { apply (sin_nulo_columna _ (PyStr h1) cX X Z Nn); [| exact EX].
    right; left; reflexivity. }
  assert (NY : sin_nan Y).
  { apply (sin_nulo_columna _ (PyStr h2) cY Y Z Nn); [| exact EY].
    right; right; left; reflexivity. }
  eexists. split; [exact (calcular_estadisticos_tabla _ _ _ _ _ _ X Y EX EY) |].
  cbn [pendiente coef_correlacion].
  split; [reflexivity |].
  split; [now apply Series_cov_np_cov |].
  now rewrite Series_corr_np_corrcoef.
Qed.

End NullFree.

(** ** The engine in exact arithmetic *)

Section Exact.

Local Open Scope R_scope.

(** The operations of [Number] at the instance [R]. *)
Ltac reales :=
  cbn [Fadd Fsub Fmul Fdiv FofZ Fisnan Fnan Fsqrt Fpow_two Fpow_half Fmin Fmax Fhalf
       R_Number] in *.

(** The reductions over a list of closed integers. *)
Ltac evaluar :=
  cbv [X_recta Y_recta Series_cov Series_var Series_cov_ddof Series_var_ddof
       Series_mean Series_sum np_cov np_dot np_mean np_sum valid_pairs fillna
       count notna combine filter List.map fold_left List.length fst snd negb
       andb residuos Fpow2 Fadd Fsub Fmul Fdiv FofZ Fisnan Fnan R_Number
       Z.of_nat Z.leb Z.compare Pos.of_succ_nat Pos.succ Z.sub Z.add Z.opp
       Z.pos_sub Pos.compare Pos.compare_cont Z.succ_double Z.pred_double
       Z.double Pos.pred_double].

Lemma sin_nan_R (xs : list R) : sin_nan xs.
Proof. apply Forall_forall. reflexivity. Qed.

Lemma filter_notna_R (xs : list R) : filter notna xs = xs.
Proof.
  induction xs as [| x xs IH]; simpl; [reflexivity | now rewrite IH].
Qed.

Lemma count_R (xs : list R) : count xs = Z.of_nat (List.length xs).
Proof. unfold count. now rewrite filter_notna_R. Qed.

Lemma Series_sum_R (xs : list R) : Series_sum xs = np_sum xs.
Proof. unfold Series_sum, fillna. simpl. now rewrite map_id. Qed.



Lemma np_dot_self (f : R -> R) (xs : list R) :
  np_dot (map f xs) (map f xs) = np_sum (map (fun x => (f x * f x)%num) xs).
Proof.
  unfold np_dot. f_equal.
  induction xs as [| x xs IH]; cbn [map combine fst snd]; [reflexivity |].
  f_equal. exact IH.
Qed.

Lemma Series_var_ddof_R (ddof : Z) (X : list R) :
  (ddof < Z.of_nat (List.length X))%Z ->
  Series_var_ddof ddof X
  = np_sum (map (fun x => (np_mean X - x) * (np_mean X - x)) X)
    / IZR (Z.of_nat (List.length X) - ddof).
Proof.
  intros Hd. unfold Series_var_ddof. rewrite count_R.
  destruct (Z.leb_spec (Z.of_nat (List.length X)) ddof); [lia |].
  rewrite Series_sum_R. reflexivity.
Qed.

Lemma np_cov_R (ddof : Z) (X Y : list R) :
  (ddof < Z.of_nat (List.length X))%Z ->
  np_cov ddof X Y
  = np_dot (map (fun x => x - np_mean X) X) (map (fun y => y - np_mean Y) Y)
    * (1 / IZR (Z.of_nat (List.length X) - ddof)).
Proof.
  intros Hd. unfold np_cov.
  destruct (Z.leb_spec (Z.of_nat (List.length X) - ddof) 0); [lia |].
  reflexivity.
Qed.

(** The sample variance is the sample covariance of a column with itself. *)
Lemma Series_var_np_cov (X : list R) :
  (2 <= List.length X)%nat -> Series_var_ddof 1 X = np_cov 1 X X.
Proof.
  intros L. rewrite Series_var_ddof_R, np_cov_R by lia.
  rewrite np_dot_self.
  reales. cbv beta.
  assert (M : map (fun x : R => (x - np_mean X) * (x - np_mean X)) X
              = map (fun x : R => (np_mean X - x) * (np_mean X - x)) X)
    by (apply map_ext; intros x; ring).
  rewrite M. unfold Rdiv. ring.
Qed.

(** The factor [n - ddof] cancels in the slope. *)
Lemma razon_ddof (X Y : list R) :
  List.length X = List.length Y -> (2 <= List.length X)%nat ->
  Series_cov_ddof 1 X Y / Series_var_ddof 1 X
  = Series_cov_ddof 0 X Y / Series_var_ddof 0 X.
Proof.
  intros L N.
  assert (NX : X <> []) by (destruct X; simpl in *; [lia | discriminate]).
  rewrite !Series_cov_np_cov by (auto using sin_nan_R).
  rewrite !np_cov_R, !Series_var_ddof_R by lia.
  set (D := np_dot _ _). set (S := np_sum _).
  assert (N1 : IZR (Z.of_nat (List.length X) - 1) <> 0)
    by (apply not_0_IZR; lia).
  assert (N0 : IZR (Z.of_nat (List.length X) - 0) <> 0)
    by (apply not_0_IZR; lia).
  reales.
  destruct (Req_dec S 0) as [Z | NZ].
  - rewrite Z. unfold Rdiv. rewrite !Rmult_0_l, Rinv_0. ring.
  - field. repeat split; assumption.
Qed.

(** *** The example of the specification *)

Lemma recta_mean_X : Series_mean (F:=R) X_recta = 3.
Proof. evaluar. lra. Qed.

Lemma recta_mean_Y : Series_mean (F:=R) Y_recta = 6.
Proof. evaluar. lra. Qed.

Lemma recta_cov : Series_cov (F:=R) X_recta Y_recta = 5.
Proof. evaluar. lra. Qed.

Lemma recta_var_X : Series_var (F:=R) X_recta = 5 / 2.
Proof. evaluar. lra. Qed.

Lemma recta_var_Y : Series_var (F:=R) Y_recta = 10.
Proof. evaluar. lra. Qed.

Lemma recta_residuos :
  Series_sum (F:=R) (map Fpow2 (residuos 0 2 X_recta Y_recta)) = 0.
Proof. evaluar. lra. Qed.

Lemma recta_corr : Series_corr (F:=R) X_recta Y_recta = 1.
Proof.
  rewrite Series_corr_np_corrcoef
    by (auto using sin_nan_R; cbn; discriminate).
  unfold np_corrcoef.
  rewrite <- !Series_var_np_cov by (cbn; lia).
  rewrite <- (Series_cov_np_cov 1 X_recta Y_recta)
    by (auto using sin_nan_R; cbn; discriminate).
  change (Series_cov_ddof 1 X_recta Y_recta) with (Series_cov X_recta Y_recta).
  change (Series_var_ddof 1 X_recta) with (Series_var X_recta).
  change (Series_var_ddof 1 Y_recta) with (Series_var Y_recta).
  rewrite recta_cov, recta_var_X, recta_var_Y.
  assert (Q : 5 / sqrt (5 / 2) / sqrt 10 = 1).
  { assert (P : sqrt (5 / 2) * sqrt 10 = 5).
    { rewrite <- sqrt_mult by lra.
      replace (5 / 2 * 10) with (5 * 5) by lra.
      apply sqrt_square. lra. }
    assert (A : 0 < sqrt (5 / 2)) by (apply sqrt_lt_R0; lra).
    assert (B : 0 < sqrt 10) by (apply sqrt_lt_R0; lra).
    rewrite <- P at 1. field. split; lra. }
  unfold np_clip. reales. rewrite Q.
  rewrite Rmax_left by lra. rewrite Rmin_left by lra. reflexivity.
Qed.

(** The five numbers and the prediction at 6, in exact arithmetic. *)
Lemma recta_perfecta_exacta :
  exists s,
    calcular_estadisticos (F:=R) recta_perfecta = Returned s /\
    pendiente s = 2 /\ interseccion s = 0 /\
    coef_correlacion s = 1 /\ coef_determinacion s = 1 /\
    error_estandar s = 0 /\
    interpretacion (F:=R) (en_disco recta_perfecta) entrada_seis
    = Returned (Prediccion 6 12).
Proof.
  pose proof (calcular_estadisticos_tabla (F:=R) (PyStr "id"%string)
                (PyStr "x"%string) (PyStr "y"%string)
                (ObjSeries (map PyStr ["a"; "b"; "c"; "d"; "e"]%string))
                (IntSeries [1; 2; 3; 4; 5]%Z) (IntSeries [2; 4; 6; 8; 10]%Z)
                X_recta Y_recta eq_refl eq_refl) as E.
  cbv zeta in E.
  rewrite recta_cov, recta_var_X, recta_mean_X, recta_mean_Y, recta_corr in E.
  reales.
  replace (5 / (5 / 2)) with 2 in E by lra.
  replace (6 - 2 * 3) with 0 in E by lra.
  rewrite recta_residuos in E.
  eexists. split; [exact E |].
  cbn [pendiente interseccion coef_correlacion coef_determinacion
       error_estandar].
  repeat split.
  - reales. lra.
  - reales. unfold Rdiv. rewrite Rmult_0_l. apply sqrt_0.
  - unfold interpretacion. cbn [file entrada_seis datapath].
    change (cargar_y_validar_datos (F:=R) (en_disco recta_perfecta)
              "/tmp/datos.xlsx")
      with (Some (recta_perfecta (F:=R)), @None string).
    cbv beta iota.
    change (calcular_estadisticos (F:=R) recta_perfecta)
      with (calcular_estadisticos (F:=R)
              [(PyStr "id"%string,
                ObjSeries (map PyStr ["a"; "b"; "c"; "d"; "e"]%string));
               (PyStr "x"%string, IntSeries [1; 2; 3; 4; 5]%Z);
               (PyStr "y"%string, IntSeries [2; 4; 6; 8; 10]%Z)]).
    rewrite E. cbn [bind interseccion pendiente].
    do 2 f_equal. unfold x_hypothetical_of. cbn [signo centenas decenas unidades].
    reales. cbn. lra.
Qed.

End Exact.

(** ** The engine: exact statements of the claims *)

(** C4, as the code has it.  On X = [1,2,3,4,5], Y = [2,4,6,8,10] the engine
    returns slope 2.0, intercept 0.0 and standard error 0.0, and the prediction
    at x = 6 is 12.0; the correlation coefficient and its square are 1 in exact
    arithmetic and come out of binary64 as [1 - 2^-53] and [1 - 2^-52]. *)
Theorem recta_perfecta_ejemplo :
  (calcular_estadisticos (F:=float) recta_perfecta
   = Returned {| pendiente := 2%float;
                 interseccion := 0%float;
                 coef_correlacion := 0x1.fffffffffffffp-1%float;
                 coef_determinacion := 0x1.ffffffffffffep-1%float;
                 error_estandar := 0%float |} /\
   interpretacion (F:=float) (en_disco recta_perfecta) entrada_seis
   = Returned (Prediccion 6 12%float)) /\
  (exists s,
     calcular_estadisticos (F:=R) recta_perfecta = Returned s /\
     pendiente s = 2%R /\ interseccion s = 0%R /\
     coef_correlacion s = 1%R /\ coef_determinacion s = 1%R /\
     error_estandar s = 0%R /\
     interpretacion (F:=R) (en_disco recta_perfecta) entrada_seis
     = Returned (Prediccion 6 12%R)).
Proof.
  split; [exact recta_perfecta_binary64 | exact recta_perfecta_exacta].
Qed.






(** C10. The slope is the sample ([ddof = 1]) covariance over the sample
    variance, and the correlation coefficient is built from sample covariances
    alone: the covariance of X and Y over the square roots of the covariance
    of each column with itself.  In exact arithmetic that covariance of a
    column with itself is the sample variance, and the slope equals the ratio
    of the population ([ddof = 0]) covariance and variance: the factor
    [n - ddof] cancels. *)
Theorem normalizacion_muestral :
  (forall (F : Type) (N : Number F)
          (read_excel : string -> outcome (@DataFrame F)) (filepath : string)
          (d : @DataFrame F) (X Y : list F),
     (forall z, Fisnan (FofZ z) = false) ->
     cargar_y_validar_datos read_excel filepath = (Some d, None) ->
     columna d 1 = Returned X ->
     columna d 2 = Returned Y ->
     List.length X = List.length Y ->
     X <> [] ->
     exists s,
       calcular_estadisticos d = Returned s /\
       pendiente s = (Series_cov_ddof 1 X Y / Series_var_ddof 1 X)%num /\
       Series_cov_ddof 1 X Y = np_cov 1 X Y /\
       coef_correlacion s
       = np_clip (np_cov 1 X Y / Fsqrt (np_cov 1 X X) / Fsqrt (np_cov 1 Y Y))%num
           (FofZ (-1)) (FofZ 1)) /\
  (forall X Y : list R,
     List.length X = List.length Y ->
     2 <= List.length X ->
     np_cov 1 X X = Series_var_ddof 1 X /\
     np_cov 1 Y Y = Series_var_ddof 1 Y /\
     (Series_cov_ddof 1 X Y / Series_var_ddof 1 X
      = Series_cov_ddof 0 X Y / Series_var_ddof 0 X)%R).
Proof.
  split.
  - intros F N. apply pendiente_y_correlacion_ddof_1.
  - intros X Y L N.
    split; [symmetry; now apply Series_var_np_cov |].
    split; [symmetry; apply Series_var_np_cov; lia |].
    now apply razon_ddof.
Qed.

Lemma normalizacion_muestral_witness :
  (exists s,
     calcular_estadisticos (F:=float) recta_perfecta = Returned s /\
     pendiente s = (Series_cov_ddof 1 X_recta Y_recta
                    / Series_var_ddof 1 X_recta)%float) /\
  (Series_cov_ddof (F:=R) 1 X_recta Y_recta / Series_var_ddof 1 X_recta
   = Series_cov_ddof 0 X_recta Y_recta / Series_var_ddof 0 X_recta)%R.
Proof.
  split.
  - assert (V : cargar_y_validar_datos (F:=float) (en_disco recta_perfecta)
                  "datos.xlsx" = (Some recta_perfecta, None))
      by (vm_compute; reflexivity).
    assert (N : X_recta (F:=float) <> []) by discriminate.
    destruct (proj1 normalizacion_muestral float float_Number
                (en_disco recta_perfecta) "datos.xlsx"%string recta_perfecta
                X_recta Y_recta of_Z_no_nan V eq_refl eq_refl eq_refl N)
      as [s [Es [Eb _]]].
    exists s. split; [exact Es | exact Eb].
  - apply (proj2 normalizacion_muestral X_recta Y_recta); cbn; lia.
Defined.

(** Three tables through the loader: one of two columns, one with a NaN in its
    X column, and the example of the specification. *)
Lemma cargar_y_validar_datos_orden_witness :
  cargar_y_validar_datos (F:=float)
    (en_disco [(PyStr "x", IntSeries [1%Z]); (PyStr "y", IntSeries [2%Z])])
    "datos.xlsx" = (None, Some msg_columnas) /\
  cargar_y_validar_datos (F:=float)
    (en_disco [(PyStr "id", ObjSeries [PyStr "a"]);
               (PyStr "x", NumSeries [nan]);
               (PyStr "y", IntSeries [2%Z])])
    "datos.xlsx" = (None, Some msg_nulos) /\
  cargar_y_validar_datos (F:=float) (en_disco recta_perfecta) "datos.xlsx"
  = (Some recta_perfecta, None).
Proof.
  split; [| split].
  - refine (proj1 (proj2 (proj2 (cargar_y_validar_datos_orden
                                   (en_disco _) "datos.xlsx"%string))) _ eq_refl _).
    left; reflexivity.
  - vm_compute. reflexivity.
  - apply (proj2 (proj2 (proj2 (proj2 (cargar_y_validar_datos_orden
             (en_disco recta_perfecta) "datos.xlsx"%string))))).
    + reflexivity.
    + reflexivity.
    + repeat constructor; eexists; (split; [reflexivity | discriminate]).
    + do 2 eexists; split; [reflexivity |]. right; left. eexists; reflexivity.
    + do 2 eexists; split; [reflexivity |]. right; left. eexists; reflexivity.
    + intros T. apply isnull_any_any_iff in T. vm_compute in T. discriminate T.
Defined.

(** * Further properties *)

(** ** The sliders *)

(** Every integer from -999 to 999 can be composed: the sliders set to its
    sign and decimal digits are within their ranges and compose it. *)
Theorem sliders_de_compone (z : Z) :
  (-999 <= z <= 999)%Z ->
  slider_values (sliders_de z) /\ x_hypothetical_of (sliders_de z) = z.
Proof.
  intros R. unfold slider_values, x_hypothetical_of, sliders_de.
  cbn [signo centenas decenas unidades].
  assert (A : (0 <= Z.abs z <= 999)%Z) by lia.
  pose proof (Z.div_mod (Z.abs z) 10 ltac:(lia)) as D1.
  pose proof (Z.div_mod (Z.abs z / 10) 10 ltac:(lia)) as D2.
  pose proof (Z.mod_pos_bound (Z.abs z) 10 ltac:(lia)) as B1.
  pose proof (Z.mod_pos_bound (Z.abs z / 10) 10 ltac:(lia)) as B2.
  assert (E : (Z.abs z / 10 / 10 = Z.abs z / 100)%Z)
    by (rewrite Z.div_div by lia; reflexivity).
  assert (B3 : (0 <= Z.abs z / 100 <= 9)%Z).
  { split; [apply Z.div_pos; lia |].
    assert (Z.abs z / 100 < 10)%Z by (apply Z.div_lt_upper_bound; lia).
    lia. }
  rewrite E in D2.
  split.
  - repeat split; try lia. destruct (z <? 0)%Z; [left | right]; reflexivity.
  - destruct (Z.ltb_spec z 0); lia.
Qed.

Lemma sliders_de_compone_witness :
  slider_values (sliders_de (-407)) /\
  x_hypothetical_of (sliders_de (-407)) = (-407)%Z.
Proof. apply sliders_de_compone. lia. Defined.

(** Two slider settings that compose the same X hold the same three digits,
    and the same sign unless X is 0 (which both signs compose). *)
Theorem x_hypothetical_of_inyectiva (i1 i2 : Input) :
  slider_values i1 -> slider_values i2 ->
  x_hypothetical_of i1 = x_hypothetical_of i2 ->
  centenas i1 = centenas i2 /\ decenas i1 = decenas i2 /\
  unidades i1 = unidades i2 /\
  (x_hypothetical_of i1 <> 0%Z -> signo i1 = signo i2).
Proof.
  unfold slider_values, x_hypothetical_of.
  intros [S1 [C1 [D1 U1]]] [S2 [C2 [D2 U2]]] E.
  destruct S1 as [S1 | S1], S2 as [S2 | S2]; rewrite S1, S2 in *; lia.
Qed.

Lemma x_hypothetical_of_inyectiva_witness :
  centenas (sliders_de 6) = centenas entrada_seis /\
  decenas (sliders_de 6) = decenas entrada_seis /\
  unidades (sliders_de 6) = unidades entrada_seis /\
  (x_hypothetical_of (sliders_de 6) <> 0%Z ->
   signo (sliders_de 6) = signo entrada_seis).
Proof.
  apply x_hypothetical_of_inyectiva.
  - unfold slider_values. cbn. lia.
  - unfold slider_values. cbn. lia.
  - reflexivity.
Defined.

(** ** Frames that were not validated *)

Section Unvalidated.

Context {F : Type} `{Number F}.

(** The engine and the plot builder raise [IndexError] on exactly the frames
    of fewer than three columns. *)
Theorem IndexError_menos_de_tres_columnas (d : @DataFrame F) (a b : F)
    (xh : option F) :
  (shape1 d < 3 <-> calcular_estadisticos d = Raised "IndexError") /\
  (shape1 d < 3 <-> crear_grafico_interactivo d a b xh = Raised "IndexError").
Proof.
  unfold shape1.
  destruct d as [| [l0 c0] [| [l1 c1] [| [l2 c2] rest]]]; cbn [List.length].
  - split; split; intros _; try reflexivity; lia.
  - split; split; intros _; try reflexivity; lia.
  - split; split; intros _; try reflexivity; lia.
  - split; (split; [lia |]); intros E; exfalso.
    + unfold calcular_estadisticos, iloc in E. cbn [nth_error bind] in E.
      destruct c1, c2; cbn in E; discriminate E.
    + unfold crear_grafico_interactivo, iloc, label in E.
      cbn [nth_error bind columns map fst] in E.
      destruct c1 as [xs | [| z zs] | [| c bs] | cells]; cbn in E;
        discriminate E.
Qed.

End Unvalidated.

(** ** The handlers *)

Section Handlers.

Context {F : Type} `{Number F}.
Local Open Scope num_scope.
Variable read_excel : string -> outcome (@DataFrame F).

(** The loader sets exactly one of its two components, and an error message
    is one of its five. *)
Lemma cargar_uno_u_otro (filepath : string) :
  (exists d, cargar_y_validar_datos read_excel filepath = (Some d, None)) \/
  (exists msg,
     cargar_y_validar_datos read_excel filepath = (None, Some msg) /\
     In msg [msg_carga; msg_columnas; msg_encabezado; msg_numericas; msg_nulos]).
Proof.
  pose proof (cargar_veredicto read_excel filepath) as V.
  inversion V; subst;
    solve [ left; eexists; reflexivity
          | right; eexists; split; [reflexivity | cbn; tauto] ].
Qed.

(** The plot builder on a table the loader accepted: it raises [TypeError]
    when the X column holds truth values, and returns a figure otherwise. *)
Lemma crear_grafico_interactivo_valido (filepath : string) (d : @DataFrame F)
    (a b : F) (xh : option F) :
  cargar_y_validar_datos read_excel filepath = (Some d, None) ->
  if x_es_booleana d then
    crear_grafico_interactivo d a b xh = Raised "TypeError"
  else
    exists fig,
      crear_grafico_interactivo d a b xh = Returned fig /\
      List.length (fig_data fig) = match xh with Some _ => 3 | None => 2 end /\
      (forall x, xh = Some x ->
         nth_error (fig_data fig) 2
         = Some {| sc_x := NumSeries [x]; sc_y := NumSeries [a + b * x];
                   sc_mode := "markers"; sc_color := Some "gold"%string;
                   sc_name := Punto_hipotetico |}).
Proof.
  intros E. apply cargar_valido_inv in E.
  destruct E as (_ & _ & h0 & c0 & h1 & cX & h2 & cY & X & Y & D & NX & _
                 & _ & _ & _).
  subst d.
  destruct (extremos_de_columna cX NX) as [hi [lo [Ehi [Elo Erg]]]].
  unfold x_es_booleana. cbn [nth_error].
  assert (G : forall rg, scalar_sub hi lo = Returned rg ->
            exists fig,
              crear_grafico_interactivo
                [(PyStr h0, c0); (PyStr h1, cX); (PyStr h2, cY)] a b xh
              = Returned fig /\
              List.length (fig_data fig)
              = match xh with Some _ => 3 | None => 2 end /\
              (forall x, xh = Some x ->
                 nth_error (fig_data fig) 2
                 = Some {| sc_x := NumSeries [x]; sc_y := NumSeries [a + b * x];
                           sc_mode := "markers"; sc_color := Some "gold"%string;
                           sc_name := Punto_hipotetico |})).
  { intros rg R.
    destruct (crear_grafico_interactivo_tabla (PyStr h0) (PyStr h1)
                (PyStr h2) c0 cX cY a b xh hi lo rg Ehi Elo R)
      as [fig [Ef [_ [_ Ed]]]].
    exists fig. split; [exact Ef |]. rewrite Ed.
    split; [destruct xh; reflexivity |].
    intros x Ex. subst xh. reflexivity. }
  destruct cX as [xs | zs | [| c bs] | cells].
  - destruct Erg as [rg R]. exact (G rg R).
  - destruct Erg as [rg R]. exact (G rg R).
  - destruct Erg as [rg R]. exact (G rg R).
  - unfold crear_grafico_interactivo. cbn [iloc nth_error bind].
    rewrite Ehi, Elo. cbn [bind]. rewrite Erg. reflexivity.
  - destruct Erg as [rg R]. exact (G rg R).
Qed.

(** The outputs of the four handlers, case by case. *)
Lemma handlers_casos (input : Input) :
  match file input with
  | None =>
      status read_excel input = Returned (Texto sin_archivo) /\
      estadisticos read_excel input = Returned (Texto sin_archivo) /\
      interpretacion read_excel input = Returned (Texto sin_archivo) /\
      plot read_excel input = Returned Nada
  | Some f =>
      match cargar_y_validar_datos read_excel (datapath f) with
      | (None, Some msg) =>
          status read_excel input = Returned (Texto msg) /\
          estadisticos read_excel input = Returned Nada /\
          interpretacion read_excel input = Returned Nada /\
          plot read_excel input = Returned Nada
      | (Some d, None) =>
          let x := x_hypothetical_of input in
          exists s,
            calcular_estadisticos d = Returned s /\
            status read_excel input = Returned (Texto (archivo_cargado f)) /\
            estadisticos read_excel input = Returned (Lista s) /\
            interpretacion read_excel input
            = Returned (Prediccion x (interseccion s + pendiente s * FofZ x)) /\
            if x_es_booleana d then
              plot read_excel input = Raised "TypeError"
            else
              exists fig,
                crear_grafico_interactivo d (interseccion s) (pendiente s)
                  (Some (FofZ x)) = Returned fig /\
                plot read_excel input = Returned (Grafico fig)
      | _ => False
      end
  end.
Proof.
  unfold status, estadisticos, interpretacion, plot.
  destruct (file input) as [f |]; [| repeat split].
  destruct (cargar_uno_u_otro (datapath f)) as [[d E] | [msg [E _]]].
  - rewrite E. cbv beta iota zeta. set (x := x_hypothetical_of input).
    destruct (calcular_estadisticos_valido read_excel (datapath f) d E)
      as [X [Y [s [_ [_ Es]]]]].
    pose proof (crear_grafico_interactivo_valido (datapath f) d (interseccion s)
                  (pendiente s) (Some (FofZ x)) E) as G.
    exists s. rewrite Es. cbn [bind].
    split; [reflexivity |]. split; [reflexivity |]. split; [reflexivity |].
    split; [reflexivity |].
    destruct (x_es_booleana d).
    + rewrite G. reflexivity.
    + destruct G as [fig [Ef _]]. exists fig. rewrite Ef. split; reflexivity.
  - rewrite E. repeat split.
Qed.

(** What the page shows, in the three situations a session can be in.
    Without a file the three text outputs show the same fixed line and the
    plot shows nothing.  Over a file the loader rejects, [status] shows the
    loader's message and the other outputs show nothing.  Over a file the
    loader accepts, [status] names the file, [estadisticos] shows the
    statistics of the engine and [interpretacion] the prediction at the
    composed X; [plot] shows the figure built from the engine's intercept and
    slope with that X as its hypothetical point, unless the X column holds
    truth values, in which case it fails with [TypeError].  There is no other
    situation. *)
Theorem handlers_por_situacion (input : Input) :
  match file input with
  | None =>
      status read_excel input = Returned (Texto sin_archivo) /\
      estadisticos read_excel input = Returned (Texto sin_archivo) /\
      interpretacion read_excel input = Returned (Texto sin_archivo) /\
      plot read_excel input = Returned Nada
  | Some f =>
      match cargar_y_validar_datos read_excel (datapath f) with
      | (None, Some msg) =>
          status read_excel input = Returned (Texto msg) /\
          estadisticos read_excel input = Returned Nada /\
          interpretacion read_excel input = Returned Nada /\
          plot read_excel input = Returned Nada
      | (Some d, None) =>
          let x := x_hypothetical_of input in
          exists s,
            calcular_estadisticos d = Returned s /\
            status read_excel input = Returned (Texto (archivo_cargado f)) /\
            estadisticos read_excel input = Returned (Lista s) /\
            interpretacion read_excel input
            = Returned (Prediccion x (interseccion s + pendiente s * FofZ x)) /\
            if x_es_booleana d then
              plot read_excel input = Raised "TypeError"
            else
              exists fig,
                crear_grafico_interactivo d (interseccion s) (pendiente s)
                  (Some (FofZ x)) = Returned fig /\
                plot read_excel input = Returned (Grafico fig)
      | _ => False
      end
  end.
Proof. exact (handlers_casos input). Qed.

(** [status], [estadisticos] and [interpretacion] never raise, whatever file
    is uploaded and whatever the parser makes of it; [plot] raises nothing but
    [TypeError]. *)
Lemma handlers_no_lanzan (input : Input) :
  (exists r, status read_excel input = Returned r) /\
  (exists r, estadisticos read_excel input = Returned r) /\
  (exists r, interpretacion read_excel input = Returned r) /\
  ((exists r, plot read_excel input = Returned r) \/
   plot read_excel input = Raised "TypeError").
Proof.
  pose proof (handlers_casos input) as P.
  destruct (file input) as [f |].
  - destruct (cargar_y_validar_datos read_excel (datapath f))
      as [[d |] [msg |]]; try contradiction.
    + destruct P as [s [_ [A [B [C D]]]]].
      rewrite A, B, C. repeat split; try (eexists; reflexivity).
      destruct (x_es_booleana d); [right; exact D |].
      destruct D as [fig [_ D]]. left. rewrite D. eexists; reflexivity.
    + destruct P as [A [B [C D]]].
      rewrite A, B, C, D. repeat split; try left; eexists; reflexivity.
  - destruct P as [A [B [C D]]].
    rewrite A, B, C, D. repeat split; try left; eexists; reflexivity.
Qed.

(** No error message of the loader, nor the line shown without a file, can
    be taken for the line that names an accepted file. *)
Lemma mensajes_distintos (f : FileInfo) (msg : string) :
  In msg [msg_carga; msg_columnas; msg_encabezado; msg_numericas; msg_nulos] ->
  msg <> archivo_cargado f.
Proof.
  unfold archivo_cargado. cbn [In].
  intros [E | [E | [E | [E | [E | []]]]]]; subst msg; discriminate.
Qed.

(** Over an uploaded file, [status] shows the line "Archivo cargado: ..."
    exactly when [estadisticos] shows statistics, exactly when
    [interpretacion] shows a prediction, and exactly when [plot] shows a
    figure or fails with [TypeError]; [plot] fails exactly when the loader
    accepted a table whose X column holds truth values. *)
Theorem status_concuerda (input : Input) (f : FileInfo) :
  file input = Some f ->
  let cargado :=
    status read_excel input = Returned (Texto (archivo_cargado f)) in
  (cargado <-> exists s, estadisticos read_excel input = Returned (Lista s)) /\
  (cargado <->
   exists x y, interpretacion read_excel input = Returned (Prediccion x y)) /\
  (cargado <->
   (exists fig, plot read_excel input = Returned (Grafico fig)) \/
   plot read_excel input = Raised "TypeError") /\
  (plot read_excel input = Raised "TypeError" <->
   exists d,
     cargar_y_validar_datos read_excel (datapath f) = (Some d, None) /\
     x_es_booleana d = true).
Proof.
  intros Ef cargado. subst cargado.
  pose proof (handlers_casos input) as P. rewrite Ef in P.
  destruct (cargar_uno_u_otro (datapath f)) as [[d E] | [msg [E I]]];
    rewrite E in P.
  - destruct P as [s [_ [A [B [C D]]]]].
    rewrite A, B, C.
    split; [split; intros _; [eexists |]; reflexivity |].
    split; [split; intros _; [do 2 eexists |]; reflexivity |].
    destruct (x_es_booleana d) eqn:Xb.
    + rewrite D. split.
      * split; intros _; [right |]; reflexivity.
      * split; intros _; [exists d; now split | reflexivity].
    + destruct D as [fig [_ D]]. rewrite D. split.
      * split; intros _; [left; eexists |]; reflexivity.
      * split; [discriminate |].
        intros [d' [E' Xb']]. rewrite E in E'. inversion E'; subst d'.
        congruence.
  - destruct P as [A [B [C D]]]. rewrite A, B, C, D.
    assert (N : @Returned (@rendered F) (Texto msg)
                <> Returned (Texto (archivo_cargado f))).
    { intros Q. apply (mensajes_distintos f msg I). now inversion Q. }
    split; [| split; [| split]].
    + split; [intros Q; contradiction | intros [s Q]; discriminate Q].
    + split; [intros Q; contradiction | intros [x [y Q]]; discriminate Q].
    + split; [intros Q; contradiction |].
      intros [[fig Q] | Q]; discriminate Q.
    + split; [discriminate |].
      intros [d [E' _]]. rewrite E in E'. discriminate E'.
Qed.

(** The gold point of the plot is the prediction of the sentence: over an
    accepted file whose X column does not hold truth values the figure has
    three traces, and the third is the single point whose X is the composed X
    and whose Y is the Y that [interpretacion] states. *)
Theorem punto_hipotetico_es_la_prediccion (input : Input) (f : FileInfo)
    (d : @DataFrame F) :
  file input = Some f ->
  cargar_y_validar_datos read_excel (datapath f) = (Some d, None) ->
  x_es_booleana d = false ->
  exists x y fig,
    interpretacion read_excel input = Returned (Prediccion x y) /\
    plot read_excel input = Returned (Grafico fig) /\
    List.length (fig_data fig) = 3 /\
    exists punto,
      nth_error (fig_data fig) 2 = Some punto /\
      sc_x punto = NumSeries [FofZ x] /\ sc_y punto = NumSeries [y] /\
      sc_color punto = Some "gold"%string.
Proof.
  intros Ef E Xb.
  destruct (calcular_estadisticos_valido read_excel (datapath f) d E)
    as [X [Y [s [_ [_ Es]]]]].
  pose proof (crear_grafico_interactivo_valido (datapath f) d (interseccion s)
                (pendiente s) (Some (FofZ (x_hypothetical_of input))) E) as G.
  rewrite Xb in G. destruct G as [fig [Eg [L P]]].
  exists (x_hypothetical_of input),
         (interseccion s + pendiente s * FofZ (x_hypothetical_of input)), fig.
  unfold interpretacion, plot. rewrite Ef, E, Es. cbn [bind]. rewrite Eg.
  split; [reflexivity |]. split; [reflexivity |]. split; [exact L |].
  eexists. split; [apply P; reflexivity |]. repeat split.
Qed.

End Handlers.

Lemma status_concuerda_witness :
  (status (F:=float) (en_disco recta_perfecta) entrada_seis
   = Returned (Texto "Archivo cargado: datos.xlsx.")) /\
  (exists s,
     estadisticos (F:=float) (en_disco recta_perfecta) entrada_seis
     = Returned (Lista s)) /\
  exists d,
    cargar_y_validar_datos (F:=float) (en_disco x_booleana) "/tmp/datos.xlsx"
    = (Some d, None) /\
    x_es_booleana d = true.
Proof.
  pose proof (status_concuerda (F:=float) (en_disco recta_perfecta)
                entrada_seis _ eq_refl) as [A _].
  assert (S : status (F:=float) (en_disco recta_perfecta) entrada_seis
              = Returned (Texto "Archivo cargado: datos.xlsx."))
    by (vm_compute; reflexivity).
  split; [exact S |]. split; [apply A; exact S |].
  pose proof (status_concuerda (F:=float) (en_disco x_booleana)
                entrada_seis _ eq_refl) as [_ [_ [_ B]]].
  apply B. vm_compute. reflexivity.
Defined.

Lemma punto_hipotetico_es_la_prediccion_witness :
  exists x y fig,
    interpretacion (F:=float) (en_disco recta_perfecta) entrada_seis
    = Returned (Prediccion x y) /\
    plot (en_disco recta_perfecta) entrada_seis = Returned (Grafico fig) /\
    List.length (fig_data fig) = 3 /\
    exists punto,
      nth_error (fig_data fig) 2 = Some punto /\
      sc_x punto = NumSeries [FofZ x] /\ sc_y punto = NumSeries [y] /\
      sc_color punto = Some "gold"%string.
Proof.
  apply (punto_hipotetico_es_la_prediccion (en_disco recta_perfecta)
           entrada_seis {| name := "datos.xlsx"; datapath := "/tmp/datos.xlsx" |}
           recta_perfecta eq_refl).
  - vm_compute. reflexivity.
  - reflexivity.
Defined.

(** ** The numbers the engine returns, on binary64 *)

Section Binary64Range.

Local Open Scope float_scope.

Variable pow : float -> float -> float.
Hypothesis pow_ok : libm_pow pow.
Let libm : Number float := binary64 pow.
#[local] Existing Instance libm | 0.

(** numpy's clip to [-1, 1] lets through NaN and nothing else outside. *)
Lemma np_clip_rango (x : float) :
  let r := np_clip x (-1) 1 in
  is_nan r = true \/ ((-1 <=? r) = true /\ (r <=? 1) = true).
Proof.
  unfold np_clip. cbn [Fmin Fmax libm binary64].
  unfold Float64.minimum, Float64.maximum.
  destruct (is_nan x) eqn:N.
  - left. rewrite orb_true_r. cbv iota. rewrite N, orb_true_r. exact N.
  - rewrite orb_false_r.
    destruct (-1 <=? x) eqn:L.
    + rewrite N, orb_false_r.
      destruct (x <=? 1) eqn:U; right; [now split | split; reflexivity].
    + right. split; reflexivity.
Qed.

(** Whenever the engine returns, the correlation coefficient it returns is
    NaN or lies between -1 and 1. *)
Theorem coef_correlacion_rango (d : @DataFrame float) (s : @Stats float) :
  calcular_estadisticos d = Returned s ->
  is_nan (coef_correlacion s) = true \/
  ((-1 <=? coef_correlacion s) = true /\ (coef_correlacion s <=? 1) = true).
Proof.
  intros E. apply calcular_estadisticos_inv in E.
  destruct E as [X [Y [_ [_ Es]]]]. cbv zeta in Es. subst s. cbn [coef_correlacion].
  unfold Series_corr.
  destruct (valid_pairs X Y) as [| p ps]; [left; reflexivity |].
  apply np_clip_rango.
Qed.

(** [** 0.5] gives NaN or a number that is not below zero. *)
Lemma pow_half_no_negativa_libm (x : float) :
  pow x 0.5 = nan \/ (0 <=? pow x 0.5) = true.
Proof.
  destruct (clases_de_binary64 x) as [E | [E | [[L N] | [Z | P]]]].
  - left. rewrite E. apply (pow_nan_half pow_ok).
  - right. rewrite E, (pow_neg_inf_half pow_ok). reflexivity.
  - left. now apply (pow_neg_half pow_ok).
  - right. rewrite (pow_zero_half pow_ok Z). reflexivity.
  - now apply (pow_pos_half pow_ok).
Qed.

(** Whenever the engine returns, the standard error it returns is NaN or not
    below zero. *)
Theorem error_estandar_no_negativo (d : @DataFrame float) (s : @Stats float) :
  calcular_estadisticos d = Returned s ->
  error_estandar s = nan \/ (0 <=? error_estandar s) = true.
Proof.
  intros E. apply calcular_estadisticos_inv in E.
  destruct E as [X [Y [_ [_ Es]]]]. cbv zeta in Es. subst s. cbn [error_estandar].
  apply pow_half_no_negativa_libm.
Qed.

Lemma count_le_length (X : list float) : (count X <= Z.of_nat (List.length X))%Z.
Proof. unfold count. pose proof (filter_length_le notna X). lia. Qed.

(** With fewer than two rows there is no sample variance: the slope and the
    intercept the engine returns are NaN. *)
Theorem pendiente_nan_con_una_fila (d : @DataFrame float) (X : list float)
    (s : @Stats float) :
  columna d 1 = Returned X ->
  (List.length X <= 1)%nat ->
  calcular_estadisticos d = Returned s ->
  pendiente s = nan /\ interseccion s = nan.
Proof.
  intros EX L E. apply calcular_estadisticos_inv in E.
  destruct E as [X' [Y [EX' [_ Es]]]].
  rewrite EX in EX'. inversion EX'; subst X'. cbv zeta in Es. subst s.
  cbn [pendiente interseccion].
  assert (V : Series_var X = nan).
  { unfold Series_var, Series_var_ddof.
    pose proof (count_le_length X).
    destruct (Z.leb_spec (count X) 1); [reflexivity | lia]. }
  rewrite V. cbn [Fdiv Fsub Fmul libm binary64].
  rewrite div_nan_r, mul_nan_l, sub_nan_r. now split.
Qed.

(** Squared residuals about a NaN line: every one is NaN, and the sum that
    skips NaN is zero. *)
Lemma residuos_nan (X Y : list float) :
  Series_sum (map Fpow2 (residuos nan nan X Y)) = 0.
Proof.
  unfold Series_sum, residuos, fillna, np_sum. rewrite !map_map.
  cbn [FofZ libm binary64 Float64.of_Z].
  generalize (combine X Y) as l.
  induction l as [| p l IH]; [reflexivity |].
  cbn [map fold_left].
  assert (Z : (if Fisnan (Fpow2 (Fsub (snd p) (Fadd nan (Fmul nan (fst p)))))
               then zero else Fpow2 (Fsub (snd p) (Fadd nan (Fmul nan (fst p)))))
              = zero).
  { cbn [Fsub Fadd Fmul libm binary64]. rewrite mul_nan_l.
    change (nan + nan) with nan. rewrite sub_nan_r. reflexivity. }
  rewrite Z. exact IH.
Qed.

(** Once the slope is NaN (a constant X, a single row) the intercept is NaN
    too, every residual is NaN and is skipped by the sum, and the standard
    error is [(0 / (n - 2)) ** 0.5] whatever the data. *)
Theorem error_estandar_con_pendiente_nan (d : @DataFrame float)
    (X : list float) (s : @Stats float) :
  columna d 1 = Returned X ->
  calcular_estadisticos d = Returned s ->
  pendiente s = nan ->
  interseccion s = nan /\
  error_estandar s
  = pow (0 / Float64.of_Z (Z.of_nat (List.length X) - 2)) 0.5.
Proof.
  intros EX E B. apply calcular_estadisticos_inv in E.
  destruct E as [X' [Y [EX' [_ Es]]]].
  rewrite EX in EX'. inversion EX'; subst X'. cbv zeta in Es. subst s.
  cbn [pendiente interseccion error_estandar] in *.
  rewrite B. cbn [Fsub Fmul libm binary64].
  rewrite mul_nan_l, sub_nan_r.
  split; [reflexivity |].
  rewrite residuos_nan. reflexivity.
Qed.

End Binary64Range.

Lemma coef_correlacion_rango_witness :
  exists s,
    calcular_estadisticos (F:=float) recta_perfecta = Returned s /\
    (is_nan (coef_correlacion s) = true \/
     ((-1 <=? coef_correlacion s)%float = true /\
      (coef_correlacion s <=? 1)%float = true)).
Proof.
  eexists. split; [apply calcular_estadisticos_tabla_xy |].
  apply (coef_correlacion_rango Float64.pow recta_perfecta).
  apply calcular_estadisticos_tabla_xy.
Defined.

Lemma error_estandar_no_negativo_witness :
  exists s,
    calcular_estadisticos (F:=float) un_tercio = Returned s /\
    (error_estandar s = nan \/ (0 <=? error_estandar s)%float = true).
Proof.
  eexists. split; [apply calcular_estadisticos_tabla_xy |].
  apply (error_estandar_no_negativo Float64.pow Float64_pow_libm un_tercio).
  apply calcular_estadisticos_tabla_xy.
Defined.

Lemma pendiente_nan_con_una_fila_witness :
  cargar_y_validar_datos (F:=float) (en_disco una_fila) "datos.xlsx"
  = (Some una_fila, None) /\
  exists s,
    calcular_estadisticos (F:=float) una_fila = Returned s /\
    pendiente s = nan /\ interseccion s = nan.
Proof.
  split; [vm_compute; reflexivity |].
  eexists. split; [apply calcular_estadisticos_tabla_xy |].
  apply (pendiente_nan_con_una_fila Float64.pow una_fila [4%float]).
  - reflexivity.
  - cbn. lia.
  - apply calcular_estadisticos_tabla_xy.
Defined.

Lemma error_estandar_con_pendiente_nan_witness :
  exists s,
    calcular_estadisticos (F:=float) x_constante = Returned s /\
    pendiente s = nan /\ interseccion s = nan /\
    error_estandar s = Float64.pow (0 / Float64.of_Z (3 - 2)) 0.5%float /\
    error_estandar s = 0%float.
Proof.
  eexists. split; [apply calcular_estadisticos_tabla_xy |].
  split; [vm_compute; reflexivity |].
  pose proof (error_estandar_con_pendiente_nan Float64.pow x_constante
                (map FofZ [1; 1; 1]%Z) _ eq_refl
                (calcular_estadisticos_tabla_xy _ _ _)) as P.
  cbv zeta in P.
  destruct (P ltac:(vm_compute; reflexivity)) as [A S].
  split; [exact A |]. split; [exact S |].
  transitivity (Float64.pow (0 / Float64.of_Z (3 - 2)) 0.5%float);
    [exact S | vm_compute; reflexivity].
Defined.

(** ** The plot builder when it returns *)

Section PlotInv.
Context {F : Type} `{Number F}.
Local Open Scope num_scope.

End PlotInv.

Section ExactPlot.
Local Open Scope R_scope.








End ExactPlot.

(** ** The fitted line in exact arithmetic *)

Section ExactFit.
Local Open Scope R_scope.

Ltac reales :=
  cbn [Fadd Fsub Fmul Fdiv FofZ Fisnan Fnan Fsqrt Fpow_two Fpow_half Fmin Fmax Fhalf
       R_Number] in *.

Lemma fold_left_Rplus_acc (l : list R) (a : R) :
  fold_left Rplus l a = a + fold_left Rplus l 0.
Proof.
  revert a. induction l as [| x l IH]; intros a; cbn [fold_left].
  - ring.
  - rewrite (IH (a + x)), (IH (0 + x)). ring.
Qed.

Lemma np_sum_nil : np_sum (F:=R) [] = 0.
Proof. reflexivity. Qed.

Lemma np_sum_cons (x : R) (l : list R) : np_sum (x :: l) = x + np_sum l.
Proof.
  unfold np_sum. reales. cbn [fold_left].
  rewrite fold_left_Rplus_acc. ring.
Qed.

Section Sums.
Variable A : Type.






End Sums.


(** The six power sums of a list of rows. *)
Lemma np_sum_poly (c0 c1 c2 c3 c4 c5 : R) (ps : list (R * R)) :
  np_sum (map (fun p => c0 + c1 * fst p + c2 * snd p + c3 * (fst p * fst p)
                        + c4 * (fst p * snd p) + c5 * (snd p * snd p)) ps)
  = c0 * IZR (Z.of_nat (List.length ps))
    + c1 * np_sum (map fst ps) + c2 * np_sum (map snd ps)
    + c3 * np_sum (map (fun p => fst p * fst p) ps)
    + c4 * np_sum (map (fun p => fst p * snd p) ps)
    + c5 * np_sum (map (fun p => snd p * snd p) ps).
Proof.
  induction ps as [| p ps IH]; cbn [map List.length].
  - rewrite !np_sum_nil. cbn. ring.
  - rewrite !np_sum_cons, IH, Nat2Z.inj_succ, succ_IZR. ring.
Qed.

Section Fit.

Variables X Y : list R.
Hypothesis L : List.length X = List.length Y.
Hypothesis N : (2 <= List.length X)%nat.

Let ps := combine X Y.
Let n := IZR (Z.of_nat (List.length X)).
Let Sx := np_sum (map fst ps).
Let Sxx := np_sum (map (fun p => fst p * fst p) ps).

Lemma length_ps : List.length ps = List.length X.
Proof. unfold ps. rewrite length_combine. lia. Qed.











Hypothesis V : Series_var X <> 0.

Let b := Series_cov X Y / Series_var X.
Let a := Series_mean Y - b * Series_mean X.














End Fit.

Lemma combine_map_same (A B C : Type) (f : A -> B) (g : A -> C) (l : list A) :
  combine (map f l) (map g l) = map (fun x => (f x, g x)) l.
Proof. induction l as [| x l IH]; cbn; [reflexivity | now rewrite IH]. Qed.



Lemma np_sum_map_ext_in (A : Type) (f g : A -> R) (l : list A) :
  (forall p, In p l -> f p = g p) -> np_sum (map f l) = np_sum (map g l).
Proof. intros E. f_equal. now apply map_ext_in. Qed.

Lemma In_combine_map (f : R -> R) (X : list R) (p : R * R) :
  In p (combine X (map f X)) -> snd p = f (fst p).
Proof.
  induction X as [| x X IH]; cbn; [tauto |].
  intros [E | I]; [subst p; reflexivity | now apply IH].
Qed.

Lemma combine_snd_snd (ps : list (R * R)) :
  combine (map snd ps) (map snd ps) = map (fun p => (snd p, snd p)) ps.
Proof. apply combine_map_same. Qed.

Section Line.

Variables (X : list R) (c k : R).
Hypothesis N : (2 <= List.length X)%nat.
Hypothesis V : Series_var X <> 0.

Let f := fun x : R => c + k * x.
Let Y := map f X.
Local Abbreviation ps := (combine X Y).
Local Abbreviation n := (IZR (Z.of_nat (List.length X))).
Local Abbreviation Sx := (np_sum (map fst ps)).
Local Abbreviation Sxx := (np_sum (map (fun p => fst p * fst p) ps)).

Lemma L_line : List.length X = List.length Y.
Proof. unfold Y. now rewrite length_map. Qed.



Lemma Syy_line :
  np_sum (map (fun p => snd p * snd p) ps)
  = c * c * n + 2 * c * k * Sx + k * k * Sxx.
Proof.
  rewrite (np_sum_map_ext_in _ (fun p => snd p * snd p)
             (fun p => c * c + (2 * c * k) * fst p + 0 * snd p
                       + (k * k) * (fst p * fst p) + 0 * (fst p * snd p)
                       + 0 * (snd p * snd p))).
  - rewrite np_sum_poly. rewrite (length_ps X Y L_line N). ring.
  - intros p I. rewrite (In_combine_map f X p I). unfold f. ring.
Qed.








End Line.




End ExactFit.

(** ** The exact statements on the example tables *)

Section ExactExamples.

Local Open Scope R_scope.









End ExactExamples.

(** ** Rows in another order *)

From Stdlib Require Import Permutation.

Section RowOrder.
Local Open Scope R_scope.

Ltac reales :=
  cbn [Fadd Fsub Fmul Fdiv FofZ Fisnan Fnan Fsqrt Fpow_two Fpow_half Fmin Fmax Fhalf
       R_Number] in *.


Section Two.

Variables X Y X' Y' : list R.
Hypothesis L : List.length X = List.length Y.
Hypothesis L' : List.length X' = List.length Y'.
Hypothesis N : (2 <= List.length X)%nat.
Hypothesis P : Permutation (combine X Y) (combine X' Y').










End Two.


End RowOrder.

(** ** More on the fitted line in exact arithmetic *)

Section ExactMore.
Local Open Scope R_scope.

Ltac reales :=
  cbn [Fadd Fsub Fmul Fdiv FofZ Fisnan Fnan Fsqrt Fpow_two Fpow_half Fmin Fmax Fhalf
       R_Number] in *.





End ExactMore.

Section ExactExamplesMore.

Local Open Scope R_scope.




End ExactExamplesMore.
